(** * ChatOutput: input normalization and message construction

    A shallow embedding of [src/chatoutput.py]: the [ChatOutput] component's
    [_validate_input], [_serialize_data], [convert_to_string],
    [_build_source] and [message_response], over a model of the Python
    values they inspect and of the store of message entities they mutate. *)

From Stdlib Require Import ZArith Ascii String DecimalString List Bool Lia.
From stdpp Require Import base option list gmap.
Import ListNotations.
Local Open Scope string_scope.
Set Warnings "-register-all".

(** ** Text

    A [string] is a Python [str] whose characters have code points below
    256; an [ascii] is one such code point. *)

Definition LF : string := String "010"%char EmptyString.

(** [str.isspace] on one character: the code points below 256 that Python
    treats as whitespace (TAB..CR, FS..US, SPACE, NEL, NBSP). *)
Definition py_isspace (c : ascii) : bool :=
  let n := nat_of_ascii c in
  (Nat.leb 9 n && Nat.leb n 13) || (Nat.leb 28 n && Nat.leb n 32)
  || Nat.eqb n 133 || Nat.eqb n 160.

Fixpoint lstrip (s : string) : string :=
  match s with
  | EmptyString => EmptyString
  | String c s' => if py_isspace c then lstrip s' else s
  end.

Fixpoint rstrip (s : string) : string :=
  match s with
  | EmptyString => EmptyString
  | String c s' =>
      match rstrip s' with
      | EmptyString => if py_isspace c then EmptyString else String c EmptyString
      | r => String c r
      end
  end.

(** [s.strip()] *)
Definition strip (s : string) : string := rstrip (lstrip s).

(** [sep.join(parts)] *)
Fixpoint join (sep : string) (parts : list string) : string :=
  match parts with
  | [] => EmptyString
  | [p] => p
  | p :: rest => p ++ sep ++ join sep rest
  end.

Definition first_char (s : string) : option ascii :=
  match s with
  | EmptyString => None
  | String c _ => Some c
  end.

Fixpoint last_char (s : string) : option ascii :=
  match s with
  | EmptyString => None
  | String c EmptyString => Some c
  | String _ s' => last_char s'
  end.

(** No leading and no trailing whitespace. *)
Definition trimmed (s : string) : Prop :=
  (forall c, first_char s = Some c -> py_isspace c = false) /\
  (forall c, last_char s = Some c -> py_isspace c = false).

Definition is_empty (s : string) : bool :=
  match s with
  | EmptyString => true
  | _ => false
  end.

Fixpoint string_mem (c : ascii) (s : string) : bool :=
  match s with
  | EmptyString => false
  | String d s' => Ascii.eqb c d || string_mem c s'
  end.

(** ** Exceptions and results *)

(** What a call into code outside this module does (a special method of
    an object, a collaborator): it returns, or it raises an exception of
    class [cls]; [ordinary] tells whether that class derives from
    [Exception], which is what [except Exception] catches. *)
Inductive Outcome (A : Type) : Type :=
| Returns (a : A)
| Raises (cls : string) (ordinary : bool).
Arguments Returns {A} a.
Arguments Raises {A} cls ordinary.

(** [ValueError] and [TypeError] are the exceptions of this module's own
    [raise] statements (lines 184 and 188).  [Raised cls ordinary] is an
    exception that comes from anywhere else (the interpreter, a special
    method, a collaborator), whatever its class. *)
Inductive exn : Type :=
| ValueError (msg : string)
| TypeError (msg : string)
| Raised (cls : string) (ordinary : bool).

Definition AttributeError : exn := Raised "AttributeError" true.

Definition is_Exception (e : exn) : bool :=
  match e with
  | ValueError _ | TypeError _ => true
  | Raised _ ordinary => ordinary
  end.

Inductive Result (A : Type) : Type :=
| Ok (a : A)
| Err (e : exn).
Arguments Ok {A} a.
Arguments Err {A} e.

Definition bind {A B} (r : Result A) (k : A -> Result B) : Result B :=
  match r with
  | Ok a => k a
  | Err e => Err e
  end.

Notation "x <- e ;; k" := (bind e (fun x => k))
  (at level 100, e at next level, right associativity).

Definition run {A} (o : Outcome A) : Result A :=
  match o with
  | Returns a => Ok a
  | Raises cls ordinary => Err (Raised cls ordinary)
  end.

(** [try: body / except Exception: handler] *)
Definition try_except {A} (body handler : Result A) : Result A :=
  match body with
  | Ok a => Ok a
  | Err e => if is_Exception e then handler else Err e
  end.

Definition mapM {A B} (f : A -> Result B) : list A -> Result (list B) :=
  fix go (l : list A) : Result (list B) :=
    match l with
    | [] => Ok []
    | a :: rest => b <- f a ;; bs <- go rest ;; Ok (b :: bs)
    end.

(** ** Values *)

(** Locations of the store of message entities. *)
Abbreviation loc := nat (only parsing).

(** What the special methods of an object of a class defined elsewhere do
    when called: [str(o)], [repr(o)], [bool(o)] and [bool(o == "")]. *)
Record Special : Type := {
  sp_str : Outcome string;
  sp_repr : Outcome string;
  sp_bool : Outcome bool;
  sp_eq_empty : Outcome bool
}.

Definition Row : Type := list string.

(** A tabular handle: its rows and its [to_string] renderer. *)
Record Table : Type := {
  t_rows : list Row;
  t_to_string : list Row -> Outcome string
}.

Inductive Value : Type :=
| VNone
| VBool (b : bool)
| VInt (n : Z)
| VStr (s : string)
| VList (items : list Value)
| VDict (entries : list (Value * Value))
| VListSub (cls : string) (items : list Value) (sp : Special)
| VDictSub (cls : string) (entries : list (Value * Value)) (sp : Special)
| VGenerator (g : nat) (shown : string)
| VMessage (l : loc)
| VData (value : option Value) (data : option Value) (sp : Special)
| VDataFrame (df : option Value) (value : option Value) (sp : Special)
| VTable (cls : string) (t : Table) (sp : Special)
| VObject (cls : string) (attrs : list (string * Value)) (sp : Special).

(** [VList]/[VDict] are the built-in [list]/[dict], a dict being the list
    of its entries in insertion order; [VListSub]/[VDictSub] are instances
    of subclasses of them that bring special methods of their own;
    [VGenerator] is a generator, shown as [shown] by [str] and [repr];
    [VMessage l] is a reference to the [Message] entity stored at [l];
    [VData] and [VDataFrame] are a [Data] and a [DataFrame] seen through the
    attributes this module reads, an absent attribute being [None]; the
    [value] of a [Data] of the library is the entry of its payload under
    ["value"] (see [direct_value] and [Data_of]);
    [VTable] is a tabular handle of the table library; [VObject] is an
    instance of any other class, with the attributes it carries. *)

Definition is_builtin_container (v : Value) : bool :=
  match v with VList _ | VDict _ => true | _ => false end.

(** Induction over values that reaches inside built-in lists and dicts. *)

Section Value_nested.
Variable P : Value -> Prop.
Hypothesis P_list : forall items, Forall P items -> P (VList items).
Hypothesis P_dict :
  forall entries, Forall (fun kv => P (fst kv) /\ P (snd kv)) entries ->
                  P (VDict entries).
Hypothesis P_other : forall v, is_builtin_container v = false -> P v.

Fixpoint Value_nested_ind (v : Value) : P v :=
  match v with
  | VList items =>
      P_list items
        ((fix go (l : list Value) : Forall P l :=
            match l with
            | [] => List.Forall_nil P
            | x :: r => List.Forall_cons P x r (Value_nested_ind x) (go r)
            end) items)
  | VDict entries =>
      P_dict entries
        ((fix go (l : list (Value * Value))
            : Forall (fun kv => P (fst kv) /\ P (snd kv)) l :=
            match l with
            | [] => List.Forall_nil _
            | (k, x) :: r =>
                List.Forall_cons _ (k, x) r
                  (conj (Value_nested_ind k) (Value_nested_ind x)) (go r)
            end) entries)
  | VNone => P_other VNone eq_refl
  | VBool b => P_other (VBool b) eq_refl
  | VInt n => P_other (VInt n) eq_refl
  | VStr s => P_other (VStr s) eq_refl
  | VListSub c i sp => P_other (VListSub c i sp) eq_refl
  | VDictSub c e sp => P_other (VDictSub c e sp) eq_refl
  | VGenerator g shown => P_other (VGenerator g shown) eq_refl
  | VMessage l => P_other (VMessage l) eq_refl
  | VData a b sp => P_other (VData a b sp) eq_refl
  | VDataFrame a b sp => P_other (VDataFrame a b sp) eq_refl
  | VTable c t sp => P_other (VTable c t sp) eq_refl
  | VObject c a sp => P_other (VObject c a sp) eq_refl
  end.
End Value_nested.

Record Source : Type := {
  src_id : option string;
  src_display_name : option string;
  src_source : option Value
}.

Record Properties : Type := {
  p_source : Source;
  p_icon : Value;
  p_background_color : Value;
  p_text_color : Value;
  p_other : list (string * Value)
}.

(** [p_other] and [m_other] hold every attribute that is not named. *)
Record Message : Type := {
  m_text : Value;
  m_sender : Value;
  m_sender_name : Value;
  m_session_id : Value;
  m_flow_id : Value;
  m_properties : Properties;
  m_other : list (string * Value)
}.

(** The store of message entities. *)
Abbreviation heap := (gmap loc Message) (only parsing).

Definition empty_Source : Source :=
  {| src_id := None; src_display_name := None; src_source := None |}.

Definition blank_Message : Message :=
  {| m_text := VNone; m_sender := VNone; m_sender_name := VNone;
     m_session_id := VNone; m_flow_id := VNone;
     m_properties := {| p_source := empty_Source; p_icon := VNone;
                        p_background_color := VNone; p_text_color := VNone;
                        p_other := [] |};
     m_other := [] |}.

#[global] Instance Message_inhabited : Inhabited Message := populate blank_Message.

(** The entity a reference points to.  References held by a program always
    point to a stored entity; the default is never read then. *)
Definition deref (h : heap) (l : loc) : Message := h !!! l.

Fixpoint assoc {A} (name : string) (l : list (string * A)) : option A :=
  match l with
  | [] => None
  | (k, a) :: rest => if String.eqb name k then Some a else assoc name rest
  end.

(** ** Built-in renderings *)

Definition hex_digit (n : nat) : string :=
  match String.get n "0123456789abcdef" with
  | Some c => String c EmptyString
  | None => EmptyString
  end.

(** [str.isprintable] on one character with a code point below 256. *)
Definition py_isprintable (c : ascii) : bool :=
  let n := nat_of_ascii c in
  (Nat.leb 32 n && Nat.leb n 126) || (Nat.leb 161 n && negb (Nat.eqb n 173)).

Definition repr_char (quote c : ascii) : string :=
  let n := nat_of_ascii c in
  if Ascii.eqb c quote || Ascii.eqb c "\"%char then String "\"%char (String c EmptyString)
  else if Nat.eqb n 9 then "\t"
  else if Nat.eqb n 10 then "\n"
  else if Nat.eqb n 13 then "\r"
  else if py_isprintable c then String c EmptyString
  else "\x" ++ hex_digit (n / 16) ++ hex_digit (n mod 16).

Fixpoint repr_chars (quote : ascii) (s : string) : string :=
  match s with
  | EmptyString => EmptyString
  | String c s' => repr_char quote c ++ repr_chars quote s'
  end.

(** [repr(s)] of a [str]: double quotes when the text holds a single quote
    and no double quote, single quotes otherwise. *)
Definition SINGLE_QUOTE : ascii := "039"%char.
Definition DOUBLE_QUOTE : ascii := "034"%char.

Definition repr_str (s : string) : string :=
  let quote : ascii :=
    if string_mem SINGLE_QUOTE s && negb (string_mem DOUBLE_QUOTE s)
    then DOUBLE_QUOTE else SINGLE_QUOTE in
  String quote (repr_chars quote s ++ String quote EmptyString).

(** [repr(n)] of an [int]. *)
Definition repr_int (n : Z) : string := NilZero.string_of_int (Z.to_int n).

Definition repr_bool (b : bool) : string := if b then "True" else "False".

(** [type(v).__name__] *)
Definition type_name (v : Value) : string :=
  match v with
  | VNone => "NoneType"
  | VBool _ => "bool"
  | VInt _ => "int"
  | VStr _ => "str"
  | VList _ => "list"
  | VDict _ => "dict"
  | VListSub cls _ _ | VDictSub cls _ _ | VTable cls _ _ | VObject cls _ _ => cls
  | VGenerator _ _ => "generator"
  | VMessage _ => "Message"
  | VData _ _ _ => "Data"
  | VDataFrame _ _ _ => "DataFrame"
  end.

(** [isinstance(v, C)] for the classes this module tests against. *)
Definition isinstance_str (v : Value) : bool :=
  match v with VStr _ => true | _ => false end.
Definition isinstance_list (v : Value) : bool :=
  match v with VList _ | VListSub _ _ _ => true | _ => false end.
Definition isinstance_dict (v : Value) : bool :=
  match v with VDict _ | VDictSub _ _ _ => true | _ => false end.
Definition isinstance_Generator (v : Value) : bool :=
  match v with VGenerator _ _ => true | _ => false end.
Definition isinstance_Message (v : Value) : bool :=
  match v with VMessage _ => true | _ => false end.
(** [Message] is a subclass of [Data] in the library. *)
Definition isinstance_Data (v : Value) : bool :=
  match v with VData _ _ _ | VMessage _ => true | _ => false end.
Definition isinstance_DataFrame (v : Value) : bool :=
  match v with VDataFrame _ _ _ => true | _ => false end.
Definition is_None (v : Value) : bool :=
  match v with VNone => true | _ => false end.

(** The elements a [for] loop over a list sees, and [d.items()]. *)
Definition list_items (v : Value) : list Value :=
  match v with
  | VList items | VListSub _ items _ => items
  | _ => []
  end.
Definition dict_items (v : Value) : list (Value * Value) :=
  match v with
  | VDict entries | VDictSub _ entries _ => entries
  | _ => []
  end.

(** ** The component and what it is given *)

Record Graph : Type := { flow_id : Value }.

(** The component's inputs (lines 30-98) and its optional [graph]. *)
Record ChatOutput : Type := {
  input_value : Value;
  should_store_message : bool;
  sender : string;
  sender_name : string;
  session_id : string;
  data_template : string;
  background_color : string;
  chat_icon : string;
  text_color : string;
  clean_data : bool;
  graph : option Graph
}.

Definition with_data_template (t : string) (self : ChatOutput) : ChatOutput :=
  {| input_value := input_value self;
     should_store_message := should_store_message self;
     sender := sender self; sender_name := sender_name self;
     session_id := session_id self; data_template := t;
     background_color := background_color self; chat_icon := chat_icon self;
     text_color := text_color self; clean_data := clean_data self;
     graph := graph self |}.

(** What the run leaves behind: the store of message entities, the
    component's [message.value] and [status], and the entities handed to
    [send_message], oldest first. *)
Record World : Type := {
  w_heap : heap;
  w_message_value : option loc;
  w_status : option loc;
  w_sent : list loc
}.

(** The tuple [get_properties_from_source_component] returns:
    [(source, icon, display_name, source_id)]. *)
Record SourceProps : Type := {
  props_source : Value;
  props_icon : Value;
  props_display_name : option string;
  props_source_id : option string
}.

(** ** Stand-ins for the collaborators

    Concrete collaborators and inputs on which the definitions below are
    evaluated. *)
Module Sample.

Definition plain (shown : string) : Special :=
  {| sp_str := Returns shown; sp_repr := Returns shown;
     sp_bool := Returns true; sp_eq_empty := Returns false |}.

(** An object whose [__str__] and [__repr__] raise [RuntimeError]. *)
Definition unprintable : Special :=
  {| sp_str := Raises "RuntimeError" true; sp_repr := Raises "RuntimeError" true;
     sp_bool := Returns true; sp_eq_empty := Returns false |}.

(** A container whose [__str__] raises while its [__repr__] works. *)
Definition str_fails (shown : string) : Special :=
  {| sp_str := Raises "RuntimeError" true; sp_repr := Returns shown;
     sp_bool := Returns true; sp_eq_empty := Returns false |}.

(** A table of the table library: its truth value is ambiguous, so
    [bool(table)] raises [ValueError]. *)
Definition ambiguous (shown : string) : Special :=
  {| sp_str := Returns shown; sp_repr := Returns shown;
     sp_bool := Raises "ValueError" true; sp_eq_empty := Returns false |}.

Definition Message_special (m : Message) : Special := plain "<Message>".

(** Text converts to itself, anything else to null. *)
Definition safe_convert (h : heap) (v : Value) (clean : bool)
    : Outcome (option string) :=
  match v with
  | VStr s => Returns (Some s)
  | _ => Returns None
  end.

Definition get_properties_from_source_component (self : ChatOutput) (h : heap)
    : Outcome SourceProps :=
  Returns {| props_source := VStr "granite"; props_icon := VStr "Bot";
             props_display_name := Some "Agent"; props_source_id := None |}.

(** A source component whose source is an object that cannot be shown. *)
Definition get_properties_with_object_source (self : ChatOutput) (h : heap)
    : Outcome SourceProps :=
  Returns {| props_source := VObject "Widget" [] unprintable;
             props_icon := VStr "Bot";
             props_display_name := Some "Agent"; props_source_id := None |}.

(** Stores a copy of the entity and returns the copy. *)
Definition send_message (h : heap) (l : loc) : Outcome loc * heap :=
  let l' := fresh (dom h) in
  (Returns l', <[l' := deref h l]> h).

Definition component (v : Value) (sid : string) (store : bool) : ChatOutput :=
  {| input_value := v; should_store_message := store; sender := "Machine";
     sender_name := "AI"; session_id := sid; data_template := "{text}";
     background_color := ""; chat_icon := ""; text_color := "";
     clean_data := true; graph := None |}.

Definition world (h : heap) : World :=
  {| w_heap := h; w_message_value := None; w_status := None; w_sent := [] |}.

(** One table row per line, cells separated by a space. *)
Definition table (rows : list Row) : Table :=
  {| t_rows := rows;
     t_to_string := fun rs => Returns (join LF (map (join " ") rs)) |}.

(** The component given [v] as input, with no session. *)
Definition given (v : Value) : ChatOutput := component v "" false.

(** A record with the payload [entries] and no ["value"] field. *)
Definition record (entries : list (Value * Value)) : Value :=
  VData None (Some (VDict entries)) (plain "<Data>").

Definition widget : Value := VObject "Widget" [] unprintable.

Definition odd_dict : Value := VDictSub "Odd" [] (str_fails "<Odd>").

Definition seven_rows : list Row :=
  [["1"]; ["2"]; ["3"]; ["4"]; ["5"]; ["6"]; ["7"]].

(** A column of the table library: it cannot be truth-tested. *)
Definition series : Value :=
  VTable "Series" (table seven_rows) (ambiguous "<Series>").

Definition model : Value :=
  VObject "ChatModel" [("model_name", VStr "m")] (plain "<ChatModel>").

Definition greeting : Message :=
  {| m_text := VStr "  hello  "; m_sender := VStr "User";
     m_sender_name := VStr "U"; m_session_id := VNone; m_flow_id := VNone;
     m_properties := {| p_source := empty_Source; p_icon := VNone;
                        p_background_color := VNone; p_text_color := VNone;
                        p_other := [("edited", VBool false)] |};
     m_other := [("files", VList [])] |}.

Definition one_message : World := world {[ 7 := greeting ]}.

End Sample.

Section Component.

(** The collaborators and library parts the module calls but does not
    define: the special methods of the [Message] class, the fields
    [Message(...)] fills in by default, [safe_convert],
    [get_properties_from_source_component] and [send_message]. *)
Variable Message_special : Message -> Special.
Variable Message_defaults : Message.
Variable safe_convert : heap -> Value -> bool -> Outcome (option string).
Variable get_properties_from_source_component : ChatOutput -> heap -> Outcome SourceProps.
Variable send_message : heap -> loc -> Outcome loc * heap.

(** ** Special methods of values *)

(** [bool(v)] *)
Definition py_truthy (h : heap) (v : Value) : Result bool :=
  match v with
  | VNone => Ok false
  | VBool b => Ok b
  | VInt n => Ok (negb (Z.eqb n 0))
  | VStr s => Ok (negb (is_empty s))
  | VList items => Ok (match items with [] => false | _ => true end)
  | VDict entries => Ok (match entries with [] => false | _ => true end)
  | VGenerator _ _ => Ok true
  | VMessage l => run (sp_bool (Message_special (deref h l)))
  | VListSub _ _ sp | VDictSub _ _ sp | VData _ _ sp | VDataFrame _ _ sp
  | VTable _ _ sp | VObject _ _ sp => run (sp_bool sp)
  end.

(** [bool(v == "")] *)
Definition py_eq_empty (h : heap) (v : Value) : Result bool :=
  match v with
  | VStr s => Ok (is_empty s)
  | VNone | VBool _ | VInt _ | VList _ | VDict _ | VGenerator _ _ => Ok false
  | VMessage l => run (sp_eq_empty (Message_special (deref h l)))
  | VListSub _ _ sp | VDictSub _ _ sp | VData _ _ sp | VDataFrame _ _ sp
  | VTable _ _ sp | VObject _ _ sp => run (sp_eq_empty sp)
  end.

(** [repr(v)] *)
Fixpoint py_repr (h : heap) (v : Value) {struct v} : Result string :=
  match v with
  | VNone => Ok "None"
  | VBool b => Ok (repr_bool b)
  | VInt n => Ok (repr_int n)
  | VStr s => Ok (repr_str s)
  | VList items =>
      parts <- mapM (py_repr h) items ;;
      Ok ("[" ++ join ", " parts ++ "]")
  | VDict entries =>
      parts <- mapM (fun kv => match kv with
                               | (k, x) =>
                                   ks <- py_repr h k ;;
                                   xs <- py_repr h x ;;
                                   Ok (ks ++ ": " ++ xs)
                               end) entries ;;
      Ok ("{" ++ join ", " parts ++ "}")
  | VGenerator _ shown => Ok shown
  | VMessage l => run (sp_repr (Message_special (deref h l)))
  | VListSub _ _ sp | VDictSub _ _ sp | VData _ _ sp | VDataFrame _ _ sp
  | VTable _ _ sp | VObject _ _ sp => run (sp_repr sp)
  end.

(** [str(v)] *)
Definition py_str (h : heap) (v : Value) : Result string :=
  match v with
  | VStr s => Ok s
  | VNone | VBool _ | VInt _ | VList _ | VDict _ | VGenerator _ _ => py_repr h v
  | VMessage l => run (sp_str (Message_special (deref h l)))
  | VListSub _ _ sp | VDictSub _ _ sp | VData _ _ sp | VDataFrame _ _ sp
  | VTable _ _ sp | VObject _ _ sp => run (sp_str sp)
  end.

(** [getattr(v, name)]; [None] stands for [AttributeError].  Only the
    attributes this module asks for are modelled. *)
Definition py_getattr (h : heap) (v : Value) (name : string) : option Value :=
  match v with
  | VData value data _ =>
      if String.eqb name "value" then value
      else if String.eqb name "data" then data else None
  | VDataFrame df value _ =>
      if String.eqb name "df" then df
      else if String.eqb name "value" then value else None
  | VObject _ attrs _ => assoc name attrs
  | VMessage l =>
      if String.eqb name "text" then Some (m_text (deref h l))
      else assoc name (m_other (deref h l))
  | _ => None
  end.

Definition py_hasattr (h : heap) (v : Value) (name : string) : bool :=
  match py_getattr h v name with Some _ => true | None => false end.

(** [getattr(v, name, None)] *)
Definition py_getattr_or_None (h : heap) (v : Value) (name : string) : Value :=
  match py_getattr h v name with Some x => x | None => VNone end.

(** [v.name]: a missing attribute raises [AttributeError]. *)
Definition py_attr (h : heap) (v : Value) (name : string) : Result Value :=
  match py_getattr h v name with
  | Some x => Ok x
  | None => Err AttributeError
  end.

(** [v.strip()]: only a [str] has it among the values modelled. *)
Definition py_strip (v : Value) : Result string :=
  match v with
  | VStr s => Ok (strip s)
  | _ => Err AttributeError
  end.

(** [DataFrame.head]'s default number of rows.
    Modelled from the spec: the count is the table library's default, which
    the call [head()] on line 213 relies on and which is not under src/. *)
Definition HEAD_ROWS : nat := 5.

(** [v.head().to_string()]: the first [HEAD_ROWS] rows of a tabular handle,
    rendered; a value of another class has no [head]. *)
Definition py_head_to_string (v : Value) : Result string :=
  match v with
  | VTable _ t _ => run (t_to_string t (firstn HEAD_ROWS (t_rows t)))
  | _ => Err AttributeError
  end.

(** ** [_build_source] (lines 108-121) *)

Definition truthy_opt (o : option string) : bool :=
  match o with
  | Some s => negb (is_empty s)
  | None => false
  end.

(** The label stored under ["source"] when [source] is truthy. *)
Definition source_label (h : heap) (source : Value) : Result Value :=
  if py_hasattr h source "model_name" then py_attr h source "model_name"
  else if py_hasattr h source "model" then
    model <- py_attr h source "model" ;;
    s <- py_str h model ;;
    Ok (VStr s)
  else
    s <- py_str h source ;;
    Ok (VStr s).

(** The result is the keyword arguments handed to [Source(...)]: a field is
    [None] when its key is not in [source_dict]. *)
Definition _build_source (h : heap) (id_ display_name : option string)
    (source : Value) : Result Source :=
  let d_id := if truthy_opt id_ then id_ else None in
  let d_display_name := if truthy_opt display_name then display_name else None in
  present <- py_truthy h source ;;
  d_source <- (if present : bool
               then label <- source_label h source ;; Ok (Some label)
               else Ok None) ;;
  Ok {| src_id := d_id; src_display_name := d_display_name;
        src_source := d_source |}.

(** ** [_serialize_data] (lines 155-179) *)

(** [v is None or v == ""] *)
Definition entry_skipped (h : heap) (v : Value) : Result bool :=
  if is_None v then Ok true else py_eq_empty h v.

(** Lines 166-172: the text of one entry value. *)
Definition entry_text (h : heap) (v : Value) : Result string :=
  if isinstance_dict v || isinstance_list v
  then try_except (py_str h v) (py_repr h v)
  else py_str h v.

(** The loop of lines 163-173, [lines] being the list built so far. *)
Fixpoint payload_lines (h : heap) (entries : list (Value * Value))
    (lines : list string) : Result (list string) :=
  match entries with
  | [] => Ok lines
  | (k, v) :: rest =>
      skip <- entry_skipped h v ;;
      if skip : bool then payload_lines h rest lines
      else
        v_str <- entry_text h v ;;
        k_str <- py_str h k ;;
        payload_lines h rest (lines ++ [k_str ++ ": " ++ v_str])
  end.

(** The lookup behind [hasattr(data, "value")] and [data.value] (line 157).
    On a [Data] the library's [__getattr__] subscripts the payload,
    [self.data["value"]]: a payload that is not a dict makes the lookup raise
    [TypeError], which [hasattr] lets through; with a dict payload the
    [value] of the [VData] is the entry found there, if any.  A [Message]
    keeps its payload among its attributes. *)
Definition value_lookup (h : heap) (data : Value) : Result (option Value) :=
  match data with
  | VData value _ _ =>
      if isinstance_dict (py_getattr_or_None h data "data") then Ok value
      else Err (Raised "TypeError" true)
  | _ => Ok (py_getattr h data "value")
  end.

Definition _serialize_data (h : heap) (data : Value) : Result string :=
  direct <- value_lookup h data ;;
  match direct with
  | Some (VStr s) => Ok (strip s)       (* hasattr and isinstance(.., str) *)
  | _ =>
      let payload := py_getattr_or_None h data "data" in
      if isinstance_dict payload then
        lines <- payload_lines h (dict_items payload) [] ;;
        Ok (match lines with
            | [] => ""
            | _ => strip (join LF lines)
            end)
      else
        try_except (s <- py_str h data ;; Ok (strip s)) (Ok "")
  end.

(** ** [_validate_input] (lines 181-188) *)

Definition valid_type (v : Value) : bool :=
  isinstance_Message v || isinstance_Data v || isinstance_DataFrame v
  || isinstance_str v || isinstance_list v || isinstance_Generator v
  || is_None v.

Definition _validate_input (self : ChatOutput) : Result unit :=
  if is_None (input_value self) then Err (ValueError "Input data cannot be None")
  else if negb (valid_type (input_value self)) then
    Err (TypeError ("Expected Data, DataFrame, Message, str, list, Generator or None, got "
                    ++ type_name (input_value self)))
  else Ok tt.

(** ** [convert_to_string] (lines 190-221) *)

(** The loop of lines 196-197, [parts] being the list built so far. *)
Fixpoint convert_items (h : heap) (clean : bool) (items : list Value)
    (parts : list (option string)) : Result (list (option string)) :=
  match items with
  | [] => Ok parts
  | item :: rest =>
      p <- run (safe_convert h item clean) ;;
      convert_items h clean rest (parts ++ [p])
  end.

(** [p.strip() for p in parts if p is not None] *)
Fixpoint stripped_parts (parts : list (option string)) : list string :=
  match parts with
  | [] => []
  | Some p :: rest => strip p :: stripped_parts rest
  | None :: rest => stripped_parts rest
  end.

Definition of_option_str (o : option string) : Value :=
  match o with Some s => VStr s | None => VNone end.

(** Lines 209-216. *)
Definition frame_to_string (h : heap) (frame : Value) : Result string :=
  let first := py_getattr_or_None h frame "df" in
  first_true <- py_truthy h first ;;
  let df_obj := if first_true : bool then first
                else py_getattr_or_None h frame "value" in
  if negb (is_None df_obj)
  then try_except (py_head_to_string df_obj) (py_str h df_obj)
  else py_str h frame.

(** Line 207: [(text or "").strip()]. *)
Definition message_text (h : heap) (message : Value) : Result string :=
  text <- py_attr h message "text" ;;
  text_true <- py_truthy h text ;;
  py_strip (if text_true : bool then text else VStr "").

Definition convert_to_string (self : ChatOutput) (h : heap) : Result Value :=
  _ <- _validate_input self ;;
  let v := input_value self in
  if isinstance_list v then
    parts <- convert_items h (clean_data self) (list_items v) [] ;;
    Ok (VStr (join LF (stripped_parts parts)))
  else if isinstance_Generator v then Ok v
  else if isinstance_Data v then s <- _serialize_data h v ;; Ok (VStr s)
  else if isinstance_Message v then s <- message_text h v ;; Ok (VStr s)
  else if isinstance_DataFrame v then s <- frame_to_string h v ;; Ok (VStr s)
  else if isinstance_str v then s <- py_strip v ;; Ok (VStr s)
  else p <- run (safe_convert h v (clean_data self)) ;; Ok (of_option_str p).

(** ** [message_response] (lines 123-153) *)

(** A computation that may raise and that reads and writes the world; what
    it wrote before raising stays written. *)
Definition M (A : Type) : Type := World -> Result A * World.

Definition ret {A} (a : A) : M A := fun w => (Ok a, w).

Definition sbind {A B} (m : M A) (k : A -> M B) : M B :=
  fun w =>
    match m w with
    | (Ok a, w') => k a w'
    | (Err e, w') => (Err e, w')
    end.

Notation "x <~ m ;; k" := (sbind m (fun x => k))
  (at level 100, m at next level, right associativity).

(** A computation that only reads the store. *)
Definition reading {A} (f : heap -> Result A) : M A :=
  fun w => (f (w_heap w), w).

Definition set_heap (h : heap) (w : World) : World :=
  {| w_heap := h; w_message_value := w_message_value w;
     w_status := w_status w; w_sent := w_sent w |}.

(** In-place update of the entity at [l]. *)
Definition modify (l : loc) (f : Message -> Message) : M unit :=
  fun w => (Ok tt, set_heap (<[l := f (deref (w_heap w) l)]> (w_heap w)) w).

(** A new entity, at a location that holds none. *)
Definition allocate (m : Message) : M loc :=
  fun w =>
    let l := fresh (dom (w_heap w)) in
    (Ok l, set_heap (<[l := m]> (w_heap w)) w).

Definition set_text (text : Value) (m : Message) : Message :=
  {| m_text := text; m_sender := m_sender m; m_sender_name := m_sender_name m;
     m_session_id := m_session_id m; m_flow_id := m_flow_id m;
     m_properties := m_properties m; m_other := m_other m |}.

(** Lines 138-141. *)
Definition set_identity (s sn sid fid : Value) (m : Message) : Message :=
  {| m_text := m_text m; m_sender := s; m_sender_name := sn;
     m_session_id := sid; m_flow_id := fid;
     m_properties := m_properties m; m_other := m_other m |}.

Definition map_properties (f : Properties -> Properties) (m : Message) : Message :=
  {| m_text := m_text m; m_sender := m_sender m;
     m_sender_name := m_sender_name m; m_session_id := m_session_id m;
     m_flow_id := m_flow_id m; m_properties := f (m_properties m);
     m_other := m_other m |}.

Definition set_source (src : Source) (p : Properties) : Properties :=
  {| p_source := src; p_icon := p_icon p;
     p_background_color := p_background_color p;
     p_text_color := p_text_color p; p_other := p_other p |}.

(** Lines 143-145. *)
Definition set_style (icon bg fg : Value) (p : Properties) : Properties :=
  {| p_source := p_source p; p_icon := icon; p_background_color := bg;
     p_text_color := fg; p_other := p_other p |}.

(** [Message(text=text)] *)
Definition Message_new (text : Value) : Message := set_text text Message_defaults.

(** [await self.send_message(message)], recorded in [w_sent]. *)
Definition send (l : loc) : M loc :=
  fun w =>
    let (r, h') := send_message (w_heap w) l in
    (run r, {| w_heap := h'; w_message_value := w_message_value w;
           w_status := w_status w; w_sent := w_sent w ++ [l] |}).

Definition set_message_value (l : loc) : M unit :=
  fun w => (Ok tt, {| w_heap := w_heap w; w_message_value := Some l;
                      w_status := w_status w; w_sent := w_sent w |}).

Definition set_status (l : loc) : M unit :=
  fun w => (Ok tt, {| w_heap := w_heap w; w_message_value := w_message_value w;
                      w_status := Some l; w_sent := w_sent w |}).

(** Line 147: [self.session_id and self.should_store_message]. *)
Definition storing (self : ChatOutput) : bool :=
  negb (is_empty (session_id self)) && should_store_message self.

(** Lines 147-150. *)
Definition store_if_requested (self : ChatOutput) (message : loc) : M loc :=
  if storing self then
    stored_message <~ send message ;;
    _ <~ set_message_value stored_message ;;
    ret stored_message
  else ret message.

(** Lines 124-145: the entity as built before it is stored. *)
Definition prepare (self : ChatOutput) : M loc :=
  text <~ reading (convert_to_string self) ;;
  props <~ reading (fun h => run (get_properties_from_source_component self h)) ;;
  let bg := background_color self in
  let fg := text_color self in
  let icon := if negb (is_empty (chat_icon self))
              then VStr (chat_icon self) else props_icon props in
  message <~ (match input_value self with
              | VMessage l => _ <~ modify l (set_text text) ;; ret l
              | _ => allocate (Message_new text)
              end) ;;
  _ <~ modify message
         (set_identity (VStr (sender self)) (VStr (sender_name self))
            (VStr (session_id self))
            (match graph self with Some g => flow_id g | None => VNone end)) ;;
  src <~ reading (fun h => _build_source h (props_source_id props)
                             (props_display_name props) (props_source props)) ;;
  _ <~ modify message (map_properties (set_source src)) ;;
  _ <~ modify message (map_properties (set_style icon (VStr bg) (VStr fg))) ;;
  ret message.

Definition message_response (self : ChatOutput) : M loc :=
  message <~ prepare self ;;
  message <~ store_if_requested self message ;;
  _ <~ set_status message ;;
  ret message.

(** ** Vocabulary of the properties *)

(** An exception that this module did not raise itself. *)
Definition foreign (e : exn) : Prop :=
  match e with
  | Raised _ _ => True
  | ValueError _ | TypeError _ => False
  end.

(** The class of an exception, as [except] clauses and callers see it. *)
Definition py_class (e : exn) : string :=
  match e with
  | ValueError _ => "ValueError"
  | TypeError _ => "TypeError"
  | Raised cls _ => cls
  end.

(** A computation that raises foreign exceptions only. *)
Definition relays {A} (r : Result A) : Prop := forall e, r = Err e -> foreign e.

(** The six recognized classes of input (line 186, [None] apart). *)
Definition recognized (v : Value) : bool :=
  isinstance_Message v || isinstance_Data v || isinstance_DataFrame v
  || isinstance_str v || isinstance_list v || isinstance_Generator v.

Definition EXPECTED : string :=
  "Expected Data, DataFrame, Message, str, list, Generator or None, got ".

(** Two components that differ at most in [data_template]. *)
Definition same_but_template (a b : ChatOutput) : Prop :=
  input_value a = input_value b /\
  should_store_message a = should_store_message b /\
  sender a = sender b /\ sender_name a = sender_name b /\
  session_id a = session_id b /\
  background_color a = background_color b /\
  chat_icon a = chat_icon b /\ text_color a = text_color b /\
  clean_data a = clean_data b /\ graph a = graph b.

(** A computation that hands nothing to [send_message] and leaves the
    component's [message.value] and [status] alone. *)
Definition quiet {A} (m : World -> Result A * World) : Prop :=
  forall w r w', m w = (r, w') ->
    w_sent w' = w_sent w /\ w_message_value w' = w_message_value w /\
    w_status w' = w_status w.

(** The list rendering as the specification words it: the conversions that
    are null or the empty string are excluded, the others are trimmed and
    joined with newline. *)
Definition spec_list_text (converted : list (option string)) : string :=
  join LF (strip <$> filter (fun s => is_empty s = false) (omap id converted)).

(** The location [message_response] builds its entity at, and the entity it
    starts from: the input entity for a [Message] input, a new one filled
    with the defaults otherwise. *)
Definition target (self : ChatOutput) (h : heap) : loc :=
  match input_value self with
  | VMessage l => l
  | _ => fresh (dom h)
  end.

Definition base (self : ChatOutput) (h : heap) : Message :=
  match input_value self with
  | VMessage l => deref h l
  | _ => Message_defaults
  end.

(** The entity after lines 132-141. *)
Definition identified (self : ChatOutput) (text : Value) (m : Message) : Message :=
  set_identity (VStr (sender self)) (VStr (sender_name self))
    (VStr (session_id self))
    (match graph self with Some g => flow_id g | None => VNone end)
    (set_text text m).

(** The icon of lines 129-130. *)
Definition chosen_icon (self : ChatOutput) (props : SourceProps) : Value :=
  if negb (is_empty (chat_icon self)) then VStr (chat_icon self)
  else props_icon props.

(** The entity after lines 132-145. *)
Definition styled (self : ChatOutput) (text : Value) (props : SourceProps)
    (src : Source) (m : Message) : Message :=
  map_properties
    (set_style (chosen_icon self props) (VStr (background_color self))
       (VStr (text_color self)))
    (map_properties (set_source src) (identified self text m)).

(** An entry value that line 164 skips, among the built-in values. *)
Definition blank (v : Value) : bool :=
  match v with
  | VNone => true
  | VStr s => is_empty s
  | _ => false
  end.

(** The entry of a payload under the key ["value"]: what [data.value] is on
    a [Data] of the library that has this payload. *)
Fixpoint direct_value (entries : list (Value * Value)) : option Value :=
  match entries with
  | [] => None
  | (VStr s, v) :: rest =>
      if String.eqb s "value" then Some v else direct_value rest
  | _ :: rest => direct_value rest
  end.

(** A [Data] as the library builds it from a dict payload. *)
Definition Data_of (entries : list (Value * Value)) (sp : Special) : Value :=
  VData (direct_value entries) (Some (VDict entries)) sp.

(** A payload whose keys and values are all texts. *)
Definition text_entries (entries : list (string * string)) : list (Value * Value) :=
  map (fun kv => (VStr (fst kv), VStr (snd kv))) entries.

Definition entry_line (kv : string * string) : string :=
  fst kv ++ ": " ++ snd kv.

(** * Properties *)

(** ** Text *)

Lemma lstrip_first (s : string) (c : ascii) :
  first_char (lstrip s) = Some c -> py_isspace c = false.
Proof.
  induction s as [|a s IH]; simpl; [discriminate|].
  destruct (py_isspace a) eqn:Ha; [exact IH|].
  simpl. intros [= <-]. exact Ha.
Qed.

Lemma rstrip_first (s : string) (c : ascii) :
  first_char (rstrip s) = Some c -> first_char s = Some c.
Proof.
  destruct s as [|a s]; simpl; [discriminate|].
  destruct (rstrip s); [destruct (py_isspace a)|]; simpl; auto; discriminate.
Qed.

Lemma last_char_cons (a b : ascii) (s : string) :
  last_char (String a (String b s)) = last_char (String b s).
Proof. reflexivity. Qed.

Lemma rstrip_last (s : string) (c : ascii) :
  last_char (rstrip s) = Some c -> py_isspace c = false.
Proof.
  induction s as [|a s IH]; simpl; [discriminate|].
  destruct (rstrip s) as [|b r] eqn:Hr.
  - destruct (py_isspace a) eqn:Ha; simpl; [discriminate|].
    intros [= <-]. exact Ha.
  - rewrite last_char_cons. exact IH.
Qed.

Lemma strip_trimmed (s : string) : trimmed (strip s).
Proof.
  split; intros c H.
  - apply rstrip_first in H. exact (lstrip_first _ _ H).
  - exact (rstrip_last _ _ H).
Qed.

Lemma trimmed_empty : trimmed "".
Proof. split; intros c; discriminate. Qed.

(** ** Results *)

Lemma bind_Ok {A B} (r : Result A) (k : A -> Result B) (b : B) :
  bind r k = Ok b -> exists a, r = Ok a /\ k a = Ok b.
Proof. destruct r as [a|e]; simpl; [eauto | discriminate]. Qed.

Lemma bind_Err {A B} (r : Result A) (k : A -> Result B) (e : exn) :
  bind r k = Err e -> r = Err e \/ exists a, r = Ok a /\ k a = Err e.
Proof. destruct r as [a|e']; simpl; [eauto | intros [= ->]; auto]. Qed.

Lemma mapM_app {A B} (f : A -> Result B) (l1 l2 : list A) :
  mapM f (l1 ++ l2) = (b1 <- mapM f l1 ;; b2 <- mapM f l2 ;; Ok (b1 ++ b2)%list).
Proof.
  induction l1 as [|a l1 IH]; simpl.
  - destruct (mapM f l2); reflexivity.
  - destruct (f a); simpl; [|reflexivity].
    rewrite IH. destruct (mapM f l1); simpl; [|reflexivity].
    destruct (mapM f l2); reflexivity.
Qed.

(** ** The list branch *)

Lemma convert_items_acc (h : heap) (clean : bool) (items : list Value)
    (parts : list (option string)) :
  convert_items h clean items parts =
  (ps <- mapM (fun item => run (safe_convert h item clean)) items ;;
   Ok (parts ++ ps)%list).
Proof.
  revert parts. induction items as [|item rest IH]; intros parts; simpl.
  - now rewrite app_nil_r.
  - destruct (run (safe_convert h item clean)) as [p|e]; simpl; [|reflexivity].
    rewrite IH. destruct (mapM _ rest); simpl; [|reflexivity].
    now rewrite <- app_assoc.
Qed.

Lemma stripped_parts_omap (parts : list (option string)) :
  stripped_parts parts = strip <$> omap id parts.
Proof.
  induction parts as [|[p|] rest IH]; simpl; [reflexivity| |exact IH].
  now rewrite IH.
Qed.

(** ** Which exceptions escape *)

Lemma relays_Ok {A} (a : A) : relays (Ok a).
Proof. intros e; discriminate. Qed.

Lemma relays_Raised {A} (cls : string) (b : bool) : relays (A := A) (Err (Raised cls b)).
Proof. intros e [= <-]. exact I. Qed.

Lemma relays_run {A} (o : Outcome A) : relays (run o).
Proof. destruct o; [apply relays_Ok | apply relays_Raised]. Qed.

Lemma relays_bind {A B} (r : Result A) (k : A -> Result B) :
  relays r -> (forall a, relays (k a)) -> relays (bind r k).
Proof.
  intros Hr Hk e He. apply bind_Err in He as [He | (a & _ & He)].
  - exact (Hr e He).
  - exact (Hk a e He).
Qed.

Lemma relays_try_except {A} (body handler : Result A) :
  relays body -> relays handler -> relays (try_except body handler).
Proof.
  intros Hb Hh e. unfold try_except. destruct body as [a|e']; [discriminate|].
  destruct (is_Exception e'); [apply Hh|]. intros [= <-]. now apply Hb.
Qed.

Lemma relays_mapM {A B} (f : A -> Result B) (l : list A) :
  Forall (fun a => relays (f a)) l -> relays (mapM f l).
Proof.
  induction 1 as [|a l Ha _ IH]; simpl; [apply relays_Ok|].
  apply relays_bind; [exact Ha|]. intros b.
  apply relays_bind; [exact IH|]. intros bs. apply relays_Ok.
Qed.

Create HintDb relays.
#[local] Hint Resolve relays_Ok relays_Raised relays_run : relays.

Lemma relays_py_truthy (h : heap) (v : Value) : relays (py_truthy h v).
Proof. destruct v; simpl; auto with relays. Qed.

Lemma relays_py_eq_empty (h : heap) (v : Value) : relays (py_eq_empty h v).
Proof. destruct v; simpl; auto with relays. Qed.

Lemma relays_py_repr (h : heap) (v : Value) : relays (py_repr h v).
Proof.
  induction v as [items IH|entries IH|v Hv] using Value_nested_ind.
  - simpl. apply relays_bind; [|intros; apply relays_Ok].
    apply relays_mapM. exact IH.
  - simpl. apply relays_bind; [|intros; apply relays_Ok].
    apply relays_mapM. eapply Forall_impl; [exact IH|].
    intros [k x] [Hk Hx]; simpl in *.
    apply relays_bind; [exact Hk|]. intros ks.
    apply relays_bind; [exact Hx|]. intros xs. apply relays_Ok.
  - destruct v; try discriminate; simpl; auto with relays.
Qed.

Lemma relays_py_str (h : heap) (v : Value) : relays (py_str h v).
Proof.
  destruct v; try apply relays_py_repr; simpl; auto with relays.
Qed.

Lemma relays_py_strip (v : Value) : relays (py_strip v).
Proof. destruct v; simpl; auto with relays; apply relays_Raised. Qed.

Lemma relays_py_attr (h : heap) (v : Value) (name : string) :
  relays (py_attr h v name).
Proof.
  unfold py_attr. destruct (py_getattr h v name); [apply relays_Ok|apply relays_Raised].
Qed.

Lemma relays_py_head_to_string (v : Value) : relays (py_head_to_string v).
Proof. destruct v; simpl; auto with relays; apply relays_Raised. Qed.

#[local] Hint Resolve relays_py_truthy relays_py_eq_empty relays_py_repr
  relays_py_str relays_py_strip relays_py_attr relays_py_head_to_string
  relays_try_except : relays.

Ltac relay :=
  repeat first
    [ apply relays_bind; [|intros ?]
    | apply relays_try_except
    | solve [auto with relays]
    | match goal with
      | |- relays (if ?b then _ else _) => destruct b
      | |- relays (match ?x with _ => _ end) => destruct x
      end ].

Lemma relays_entry_text (h : heap) (v : Value) : relays (entry_text h v).
Proof. unfold entry_text. relay. Qed.

Lemma relays_entry_skipped (h : heap) (v : Value) : relays (entry_skipped h v).
Proof. unfold entry_skipped. relay. Qed.

Lemma relays_payload_lines (h : heap) (entries : list (Value * Value))
    (lines : list string) :
  relays (payload_lines h entries lines).
Proof.
  revert lines. induction entries as [|[k v] rest IH]; intros lines; simpl.
  - apply relays_Ok.
  - apply relays_bind; [apply relays_entry_skipped|]. intros [|]; [apply IH|].
    apply relays_bind; [apply relays_entry_text|]. intros v_str.
    apply relays_bind; [apply relays_py_str|]. intros k_str. apply IH.
Qed.

Lemma relays_serialize_data (h : heap) (data : Value) :
  relays (_serialize_data h data).
Proof.
  assert (Hrest : relays
    (let payload := py_getattr_or_None h data "data" in
     if isinstance_dict payload then
       lines <- payload_lines h (dict_items payload) [] ;;
       Ok (match lines with [] => "" | _ => strip (join LF lines) end)
     else try_except (s <- py_str h data ;; Ok (strip s)) (Ok ""))).
  { cbv zeta. destruct (isinstance_dict _).
    - apply relays_bind; [apply relays_payload_lines|]. intros; apply relays_Ok.
    - relay. }
  unfold _serialize_data. apply relays_bind.
  - unfold value_lookup. destruct data; try apply relays_Ok.
    destruct (isinstance_dict _); [apply relays_Ok | apply relays_Raised].
  - intros [[]|]; first [exact Hrest | apply relays_Ok].
Qed.

Lemma relays_message_text (h : heap) (m : Value) : relays (message_text h m).
Proof. unfold message_text. relay. Qed.

Lemma relays_frame_to_string (h : heap) (f : Value) : relays (frame_to_string h f).
Proof. unfold frame_to_string. relay. Qed.

Lemma relays_convert_items (h : heap) (clean : bool) (items : list Value)
    (parts : list (option string)) :
  relays (convert_items h clean items parts).
Proof.
  revert parts. induction items as [|item rest IH]; intros parts; simpl.
  - apply relays_Ok.
  - apply relays_bind; [apply relays_run|]. intros p. apply IH.
Qed.

(** Once validation has passed, whatever [convert_to_string] raises was
    raised by a collaborator or by a special method. *)
Lemma relays_after_validation (self : ChatOutput) (h : heap) :
  _validate_input self = Ok tt -> relays (convert_to_string self h).
Proof.
  intros Hv. unfold convert_to_string. rewrite Hv. simpl.
  repeat match goal with
         | |- relays (if ?b then _ else _) => destruct b
         end;
    try (apply relays_bind; [|intros; apply relays_Ok]);
    auto using relays_convert_items, relays_serialize_data, relays_message_text,
      relays_frame_to_string, relays_py_strip, relays_run, relays_Ok.
Qed.

(** ** Validation *)

Lemma is_None_spec (v : Value) : is_None v = true <-> v = VNone.
Proof. destruct v; simpl; split; (reflexivity || discriminate). Qed.

Lemma valid_type_recognized (v : Value) :
  v <> VNone -> valid_type v = recognized v.
Proof.
  intros Hv. unfold valid_type, recognized.
  destruct v; try reflexivity. now destruct Hv.
Qed.

Lemma validate_outcome (self : ChatOutput) :
  let v := input_value self in
  (v = VNone /\ _validate_input self = Err (ValueError "Input data cannot be None")) \/
  (v <> VNone /\ recognized v = false /\
   _validate_input self = Err (TypeError (EXPECTED ++ type_name v))) \/
  (v <> VNone /\ recognized v = true /\ _validate_input self = Ok tt).
Proof.
  unfold _validate_input. destruct (input_value self) eqn:Hv; simpl;
    first [ left; split; reflexivity
          | right; left; repeat split; discriminate
          | right; right; repeat split; discriminate ].
Qed.

(** C3, amended: [convert_to_string] raises the [ValueError] of line 184
    whenever the input is [None], whatever the other inputs of the
    component are, and the [TypeError] of line 188, whose message ends with
    the name of the input's type, whenever the input is not [None] and is an
    instance of none of the six recognized classes.  These are the only
    errors [_validate_input] raises, each in exactly that case, the test for
    [None] coming first.  On a recognized input validation passes, and
    whatever the call raises afterwards has escaped from a special method or
    from a collaborator; it may be of any class. *)
Theorem validation_errors (self : ChatOutput) (h : heap) :
  let v := input_value self in
  (v = VNone ->
   convert_to_string self h = Err (ValueError "Input data cannot be None")) /\
  (v <> VNone -> recognized v = false ->
   convert_to_string self h = Err (TypeError (EXPECTED ++ type_name v))) /\
  (forall e, _validate_input self = Err e <->
     (v = VNone /\ e = ValueError "Input data cannot be None") \/
     (v <> VNone /\ recognized v = false /\
      e = TypeError (EXPECTED ++ type_name v))) /\
  (v <> VNone -> recognized v = true ->
   _validate_input self = Ok tt /\
   forall e, convert_to_string self h = Err e ->
             exists cls ordinary, e = Raised cls ordinary).
Proof.
  intros v. subst v.
  destruct (validate_outcome self)
    as [(Hv & Hval) | [(Hv & Hr & Hval) | (Hv & Hr & Hval)]].
  - split; [|split; [|split]].
    + intros _. unfold convert_to_string. now rewrite Hval.
    + intros Hn. now destruct Hn.
    + intros e. rewrite Hval. split.
      * intros [= <-]. left. auto.
      * intros [(_ & ->) | (Hn & _)]; [reflexivity | now destruct Hn].
    + intros Hn. now destruct Hn.
  - split; [|split; [|split]].
    + intros Hn. now destruct Hv.
    + intros _ _. unfold convert_to_string. now rewrite Hval.
    + intros e. rewrite Hval. split.
      * intros [= <-]. right. auto.
      * intros [(Hn & _) | (_ & _ & ->)]; [now destruct Hv | reflexivity].
    + intros _ Hyes. congruence.
  - pose proof (relays_after_validation self h Hval) as Hrel.
    split; [|split; [|split]].
    + intros Hn. now destruct Hv.
    + intros _ Hno. congruence.
    + intros e. rewrite Hval. split.
      * intros [=].
      * intros [(Hn & _) | (_ & Hno & _)]; [now destruct Hv | congruence].
    + intros _ _. split; [exact Hval|].
      intros e He. specialize (Hrel e He).
      destruct e as [msg|msg|cls ordinary]; try now destruct Hrel.
      eauto.
Qed.

(** ** Lists *)

Lemma validate_list (self : ChatOutput) :
  isinstance_list (input_value self) = true -> _validate_input self = Ok tt.
Proof.
  unfold _validate_input. destruct (input_value self); simpl; congruence.
Qed.

(** C1, amended: on a list, [convert_to_string] converts the elements one by
    one with [safe_convert] and the [clean_data] flag, in order, drops the
    conversions that are null and only those, strips each remaining one and
    joins them with newline; a conversion that is the empty string stays in
    the result as an empty segment; if a conversion raises, so does the
    call; the empty list gives the empty string. *)
Theorem normalize_list (self : ChatOutput) (h : heap) :
  isinstance_list (input_value self) = true ->
  convert_to_string self h =
    (converted <- mapM (fun item => run (safe_convert h item (clean_data self)))
                       (list_items (input_value self)) ;;
     Ok (VStr (join LF (strip <$> omap id converted)))) /\
  (list_items (input_value self) = [] -> convert_to_string self h = Ok (VStr "")).
Proof.
  intros Hl.
  assert (Heq : convert_to_string self h =
    (converted <- mapM (fun item => run (safe_convert h item (clean_data self)))
                       (list_items (input_value self)) ;;
     Ok (VStr (join LF (strip <$> omap id converted))))).
  { unfold convert_to_string. rewrite (validate_list self Hl), Hl. simpl.
    rewrite convert_items_acc.
    destruct (mapM _ (list_items (input_value self))) as [ps|e]; simpl; [|reflexivity].
    now rewrite stripped_parts_omap. }
  split; [exact Heq|]. intros Hnil. rewrite Heq, Hnil. reflexivity.
Qed.

(** ** Records *)

(** C4: a record without a direct string ["value"] field whose payload is
    [{"a": "x", "b": "", "c": None, "d": "y"}] is rendered as the two lines
    ["a: x"] and ["d: y"]. *)
Theorem record_payload_example (self : ChatOutput) (h : heap)
    (value : option Value) (sp : Special) :
  input_value self =
    VData value
      (Some (VDict [(VStr "a", VStr "x"); (VStr "b", VStr "");
                    (VStr "c", VNone); (VStr "d", VStr "y")])) sp ->
  (forall s, value <> Some (VStr s)) ->
  convert_to_string self h = Ok (VStr ("a: x" ++ LF ++ "d: y")).
Proof.
  intros Hin Hvalue. unfold convert_to_string, _validate_input.
  rewrite Hin. simpl. unfold _serialize_data. simpl.
  destruct value as [[]|]; try reflexivity.
  now destruct (Hvalue s).
Qed.

(** ** The template option *)

(** C8: two components that differ only in [data_template] convert their
    input to the same result. *)
Theorem data_template_inert (a b : ChatOutput) (h : heap) :
  same_but_template a b -> convert_to_string a h = convert_to_string b h.
Proof.
  intros (Hin & _ & _ & _ & _ & _ & _ & _ & Hclean & _).
  unfold convert_to_string, _validate_input. now rewrite Hin, Hclean.
Qed.

Lemma with_data_template_same (t : string) (self : ChatOutput) :
  same_but_template (with_data_template t self) self.
Proof. repeat split. Qed.

(** ** Trimmed results *)

Lemma payload_text_trimmed (lines : list string) :
  trimmed (match lines with [] => "" | _ => strip (join LF lines) end).
Proof. destruct lines; [apply trimmed_empty | apply strip_trimmed]. Qed.

Lemma serialize_data_trimmed (h : heap) (data : Value) (s : string) :
  _serialize_data h data = Ok s -> trimmed s.
Proof.
  assert (Hrest :
    (let payload := py_getattr_or_None h data "data" in
     if isinstance_dict payload then
       lines <- payload_lines h (dict_items payload) [] ;;
       Ok (match lines with [] => "" | _ => strip (join LF lines) end)
     else try_except (t <- py_str h data ;; Ok (strip t)) (Ok "")) = Ok s ->
    trimmed s).
  { cbv zeta. destruct (isinstance_dict _).
    - intros H. apply bind_Ok in H as (lines & _ & [= <-]).
      apply payload_text_trimmed.
    - unfold try_except. destruct (py_str h data) as [t|e]; simpl.
      + intros [= <-]. apply strip_trimmed.
      + destruct (is_Exception e); [|discriminate].
        intros [= <-]. apply trimmed_empty. }
  unfold _serialize_data. intros H.
  apply bind_Ok in H as (direct & _ & H). revert H.
  destruct direct as [[]|]; try exact Hrest.
  intros [= <-]. apply strip_trimmed.
Qed.

Lemma py_strip_trimmed (v : Value) (s : string) :
  py_strip v = Ok s -> trimmed s.
Proof. destruct v; simpl; try discriminate. intros [= <-]. apply strip_trimmed. Qed.

Lemma message_text_trimmed (h : heap) (m : Value) (s : string) :
  message_text h m = Ok s -> trimmed s.
Proof.
  unfold message_text. intros H.
  apply bind_Ok in H as (text & _ & H). apply bind_Ok in H as (b & _ & H).
  exact (py_strip_trimmed _ _ H).
Qed.

(** On a text, a message or a record, what [convert_to_string] returns is a
    text without leading or trailing whitespace. *)
Lemma text_message_record_trimmed (self : ChatOutput) (h : heap) (x : Value) :
  isinstance_str (input_value self) || isinstance_Message (input_value self)
  || isinstance_Data (input_value self) = true ->
  convert_to_string self h = Ok x ->
  exists s, x = VStr s /\ trimmed s.
Proof.
  intros Hkind H. unfold convert_to_string in H.
  apply bind_Ok in H as ([] & _ & H).
  destruct (input_value self) eqn:Hin; try discriminate Hkind; cbn [isinstance_list
    isinstance_Generator isinstance_Data isinstance_Message isinstance_DataFrame
    isinstance_str] in H;
    apply bind_Ok in H as (t & Ht & [= <-]); exists t; split; try reflexivity.
  - exact (py_strip_trimmed _ _ Ht).
  - exact (serialize_data_trimmed _ _ _ Ht).
  - exact (serialize_data_trimmed _ _ _ Ht).
Qed.

(** ** Payload entries *)

Lemma payload_lines_acc (h : heap) (entries : list (Value * Value))
    (lines : list string) :
  payload_lines h entries lines =
  (ls <- payload_lines h entries [] ;; Ok (lines ++ ls)%list).
Proof.
  revert lines. induction entries as [|[k v] rest IH]; intros lines; simpl.
  - now rewrite app_nil_r.
  - destruct (entry_skipped h v) as [[|]|e]; simpl; [apply IH| |reflexivity].
    destruct (entry_text h v) as [v_str|e]; simpl; [|reflexivity].
    destruct (py_str h k) as [k_str|e]; simpl; [|reflexivity].
    rewrite (IH (lines ++ _)%list), (IH [_]).
    destruct (payload_lines h rest []); simpl; [|reflexivity].
    now rewrite <- app_assoc.
Qed.

Lemma payload_lines_app (h : heap) (before after : list (Value * Value))
    (lines : list string) :
  payload_lines h (before ++ after) lines =
  (ls <- payload_lines h before lines ;; payload_lines h after ls).
Proof.
  revert lines. induction before as [|[k v] rest IH]; intros lines; simpl.
  - reflexivity.
  - destruct (entry_skipped h v) as [[|]|e]; simpl; [apply IH| |reflexivity].
    destruct (entry_text h v) as [v_str|e]; simpl; [|reflexivity].
    destruct (py_str h k) as [k_str|e]; simpl; [|reflexivity].
    apply IH.
Qed.

Lemma validate_Data (self : ChatOutput) :
  isinstance_Data (input_value self) = true -> _validate_input self = Ok tt.
Proof.
  unfold _validate_input. destruct (input_value self); simpl; congruence.
Qed.

Lemma serialize_payload (h : heap) (value : option Value) (payload : Value)
    (sp : Special) :
  (forall s, value <> Some (VStr s)) ->
  isinstance_dict payload = true ->
  _serialize_data h (VData value (Some payload) sp) =
  (lines <- payload_lines h (dict_items payload) [] ;;
   Ok (match lines with [] => "" | _ => strip (join LF lines) end)).
Proof.
  intros Hvalue Hdict.
  unfold _serialize_data, value_lookup, py_getattr_or_None. simpl.
  rewrite Hdict. simpl.
  destruct value as [[| | |s| | | | | | | | | |]|]; try reflexivity.
  now destruct (Hvalue s).
Qed.

(** C2, amended: in a record rendered entry by entry, when the [str] of an
    entry value that is a dict or a list fails with an ordinary exception
    and its [repr] works, the entry's line carries the [repr], the other
    entries are rendered as they are without that entry, and the call
    returns.  (The [str] of a value of another kind is not guarded, and
    neither is the [repr] used as fallback.) *)
Theorem nested_value_fallback (self : ChatOutput) (h : heap)
    (value : option Value) (payload : Value) (sp : Special)
    (before after : list (Value * Value)) (k v : Value)
    (lines_before lines_after : list string) (k_str shown : string) (e : exn) :
  input_value self = VData value (Some payload) sp ->
  (forall s, value <> Some (VStr s)) ->
  isinstance_dict payload = true ->
  dict_items payload = (before ++ (k, v) :: after)%list ->
  isinstance_dict v || isinstance_list v = true ->
  entry_skipped h v = Ok false ->
  py_str h v = Err e -> is_Exception e = true ->
  py_repr h v = Ok shown ->
  py_str h k = Ok k_str ->
  payload_lines h before [] = Ok lines_before ->
  payload_lines h after [] = Ok lines_after ->
  convert_to_string self h =
  Ok (VStr (strip (join LF (lines_before ++ [(k_str ++ ": " ++ shown)%string]
                            ++ lines_after)%list))).
Proof.
  intros Hin Hvalue Hdict Hitems Hkind Hskip Hstr Hexc Hrepr Hk Hb Ha.
  unfold convert_to_string.
  rewrite validate_Data by (now rewrite Hin). rewrite Hin. simpl.
  rewrite (serialize_payload h value payload sp Hvalue Hdict), Hitems.
  rewrite payload_lines_app, Hb. simpl. rewrite Hskip. simpl.
  unfold entry_text. rewrite Hkind, Hstr. simpl. rewrite Hexc, Hrepr. simpl.
  rewrite Hk. simpl. rewrite payload_lines_acc, Ha. simpl.
  rewrite <- app_assoc. simpl.
  destruct lines_before; reflexivity.
Qed.

(** ** Frames *)

(** The handle line 210 settles on, when the truth test of the ["df"]
    attribute returns. *)
Lemma frame_handle (h : heap) (frame : Value) (first_true : bool) :
  py_truthy h (py_getattr_or_None h frame "df") = Ok first_true ->
  frame_to_string h frame =
  let df_obj := if first_true then py_getattr_or_None h frame "df"
                else py_getattr_or_None h frame "value" in
  if is_None df_obj then py_str h frame
  else try_except (py_head_to_string df_obj) (py_str h df_obj).
Proof.
  intros H. unfold frame_to_string. rewrite H. simpl.
  destruct (is_None _); reflexivity.
Qed.

(** When that truth test raises, so does the call. *)
Lemma frame_truth_test_raises (h : heap) (frame : Value) (e : exn) :
  py_truthy h (py_getattr_or_None h frame "df") = Err e ->
  frame_to_string h frame = Err e.
Proof. intros H. unfold frame_to_string. now rewrite H. Qed.

(** ** Sources *)

Lemma truthy_opt_spec (o : option string) :
  truthy_opt o = true <-> exists s, o = Some s /\ s <> "".
Proof.
  destruct o as [[|c s]|]; simpl; split; try discriminate.
  - intros (s & [= <-] & Hs). now destruct Hs.
  - intros _. eexists; split; [reflexivity | discriminate].
  - reflexivity.
  - intros (s & [=] & _).
Qed.

(** C10: in the [Source] that [_build_source] builds, [id] and
    [display_name] are present exactly when the argument is a non-empty
    text (an empty text is left out like [None]), and [source] is present
    exactly when the argument is truthy; it is then the [model_name]
    attribute if the argument has one, else the [str] of its [model]
    attribute if it has one, else the [str] of the argument itself. *)
Theorem build_source_fields (h : heap) (id_ display_name : option string)
    (source : Value) (built : Source) :
  _build_source h id_ display_name source = Ok built ->
  (forall x, src_id built = Some x <-> (id_ = Some x /\ x <> "")) /\
  (forall x, src_display_name built = Some x <->
             (display_name = Some x /\ x <> "")) /\
  (is_Some (src_source built) <-> py_truthy h source = Ok true) /\
  (forall label, src_source built = Some label ->
     match py_getattr h source "model_name" with
     | Some name => label = name
     | None =>
         match py_getattr h source "model" with
         | Some model => exists s, py_str h model = Ok s /\ label = VStr s
         | None => exists s, py_str h source = Ok s /\ label = VStr s
         end
     end).
Proof.
  unfold _build_source. intros H.
  apply bind_Ok in H as (present & Hp & H).
  apply bind_Ok in H as (d_source & Hs & [= <-]). simpl.
  assert (Hopt : forall o x,
            (if truthy_opt o then o else None) = Some x <-> (o = Some x /\ x <> "")).
  { intros [[|c s]|] x; simpl; split; try discriminate.
    - intros ([= <-] & Hx). now destruct Hx.
    - intros [= <-]. split; [reflexivity | discriminate].
    - now intros ([= <-] & _).
    - intros ([=] & _). }
  split; [apply Hopt|]. split; [apply Hopt|].
  destruct present.
  - apply bind_Ok in Hs as (label & Hl & [= <-]). split.
    + split; [intros _; exact Hp | intros _; eexists; reflexivity].
    + intros label' [= <-]. unfold source_label, py_hasattr, py_attr in Hl.
      destruct (py_getattr h source "model_name") as [name|].
      * now injection Hl as <-.
      * destruct (py_getattr h source "model") as [model|]; simpl in Hl;
          apply bind_Ok in Hl as (s & Hs' & [= <-]); eauto.
  - injection Hs as <-. split.
    + split; [intros [x [=]] | rewrite Hp; discriminate].
    + intros label [=].
Qed.

(** [_build_source] returns as soon as the truth test of [source] and, for
    a truthy [source], the rendering of its label return. *)
Lemma build_source_returns (h : heap) (id_ display_name : option string)
    (source : Value) (present : bool) :
  py_truthy h source = Ok present ->
  (present = true -> exists label, source_label h source = Ok label) ->
  exists built, _build_source h id_ display_name source = Ok built.
Proof.
  intros Hp Hl. unfold _build_source. rewrite Hp. simpl.
  destruct present; simpl; [|eauto].
  destruct Hl as (label & ->); [reflexivity|]. simpl. eauto.
Qed.

(** ** Building the message *)

Lemma sbind_inv {A B} (m : M A) (k : A -> M B) (w w' : World) (r : Result B) :
  sbind m k w = (r, w') ->
  (exists a w1, m w = (Ok a, w1) /\ k a w1 = (r, w')) \/
  (exists e, m w = (Err e, w') /\ r = Err e).
Proof.
  unfold sbind. destruct (m w) as [[a|e] w1]; intros H.
  - left. eauto.
  - right. injection H as <- <-. eauto.
Qed.

Lemma quiet_ret {A} (a : A) : quiet (ret a).
Proof. intros w r w' [= <- <-]. auto. Qed.

Lemma quiet_reading {A} (f : heap -> Result A) : quiet (reading f).
Proof. intros w r w' [= <- <-]. auto. Qed.

Lemma quiet_modify (l : loc) (f : Message -> Message) : quiet (modify l f).
Proof. intros w r w' [= <- <-]. auto. Qed.

Lemma quiet_allocate (m : Message) : quiet (allocate m).
Proof. intros w r w' [= <- <-]. auto. Qed.

Lemma quiet_sbind {A B} (m : M A) (k : A -> M B) :
  quiet m -> (forall a, quiet (k a)) -> quiet (sbind m k).
Proof.
  intros Hm Hk w r w' H.
  apply sbind_inv in H as [(a & w1 & H1 & H2) | (e & H1 & _)].
  - destruct (Hm _ _ _ H1) as (E1 & E2 & E3).
    destruct (Hk a _ _ _ H2) as (F1 & F2 & F3).
    repeat split; congruence.
  - exact (Hm _ _ _ H1).
Qed.

Lemma quiet_prepare (self : ChatOutput) : quiet (prepare self).
Proof.
  unfold prepare.
  repeat first
    [ apply quiet_sbind; [|intros ?]
    | apply quiet_ret | apply quiet_reading | apply quiet_modify
    | apply quiet_allocate
    | match goal with |- quiet (match ?x with _ => _ end) => destruct x end ].
Qed.

Lemma storing_spec (self : ChatOutput) :
  storing self = true <->
  (session_id self <> "" /\ should_store_message self = true).
Proof.
  unfold storing.
  destruct (session_id self) as [|c s]; destruct (should_store_message self);
    simpl; split; intros H; try discriminate H;
    try (destruct H; congruence);
    split; (discriminate || reflexivity).
Qed.

(** How a run ends once the entity has been built (lines 147-153). *)
Lemma message_response_after_prepare (self : ChatOutput) (w w0 : World) (l0 : loc) :
  prepare self w = (Ok l0, w0) ->
  message_response self w =
  if storing self then
    let (r, h') := send_message (w_heap w0) l0 in
    match r with
    | Returns l =>
        (Ok l, {| w_heap := h'; w_message_value := Some l;
                  w_status := Some l; w_sent := w_sent w0 ++ [l0] |})
    | Raises cls ordinary =>
        (Err (Raised cls ordinary),
         {| w_heap := h'; w_message_value := w_message_value w0;
            w_status := w_status w0; w_sent := w_sent w0 ++ [l0] |})
    end
  else
    (Ok l0, {| w_heap := w_heap w0; w_message_value := w_message_value w0;
               w_status := Some l0; w_sent := w_sent w0 |}).
Proof.
  intros Hp. unfold message_response, sbind at 1. rewrite Hp.
  unfold store_if_requested. destruct (storing self).
  - unfold sbind, send. destruct (send_message (w_heap w0) l0) as [[l|cls b] h'];
      reflexivity.
  - reflexivity.
Qed.

Lemma message_response_prepare_fails (self : ChatOutput) (w w0 : World) (e : exn) :
  prepare self w = (Err e, w0) -> message_response self w = (Err e, w0).
Proof. intros Hp. unfold message_response, sbind at 1. now rewrite Hp. Qed.

(** C5: [message_response] hands the entity to [send_message] exactly when
    [session_id] is not empty and [should_store_message] is set.  A run that
    raises before line 147 sends nothing.  A run that gets there with the
    entity [l0] built: when both hold, [send_message] is called once, on
    [l0], and what it returns (or raises) is the result of the run, recorded
    in [message.value] and [status]; when one fails, nothing is sent and the
    result is [l0] itself. *)
Theorem persist_iff_requested (self : ChatOutput) (w w' : World) (r : Result loc) :
  message_response self w = (r, w') ->
  (forall e w0, prepare self w = (Err e, w0) ->
     r = Err e /\ w' = w0 /\ w_sent w' = w_sent w) /\
  (forall l0 w0, prepare self w = (Ok l0, w0) ->
     ((session_id self <> "" /\ should_store_message self = true) ->
      w_sent w' = (w_sent w ++ [l0])%list /\
      r = run (fst (send_message (w_heap w0) l0)) /\
      w_heap w' = snd (send_message (w_heap w0) l0) /\
      (forall l, r = Ok l ->
         w_message_value w' = Some l /\ w_status w' = Some l)) /\
     ((session_id self = "" \/ should_store_message self = false) ->
      w_sent w' = w_sent w /\ r = Ok l0 /\ w_heap w' = w_heap w0 /\
      w_status w' = Some l0 /\ w_message_value w' = w_message_value w)) /\
  (forall l, r = Ok l ->
     ((session_id self <> "" /\ should_store_message self = true) <->
      exists l0, w_sent w' = (w_sent w ++ [l0])%list)).
Proof.
  intros Hrun.
  destruct (prepare self w) as [[l0|e] w0] eqn:Hp.
  - destruct (quiet_prepare self _ _ _ Hp) as (Hsent & Hvalue & Hstatus).
    rewrite (message_response_after_prepare self w w0 l0 Hp) in Hrun.
    destruct (storing self) eqn:Hst.
    + pose proof (proj1 (storing_spec self) Hst) as Hyes.
      assert (Hnot : session_id self = "" \/ should_store_message self = false ->
                     False).
      { intros [Hno | Hno]; destruct Hyes; congruence. }
      destruct (send_message (w_heap w0) l0) as [[l|cls b] h'] eqn:Hsend;
        injection Hrun as <- <-; simpl; rewrite Hsent;
        (split; [intros e w1 [=]|]); split.
      * intros l1 w1 [= <- <-]. rewrite Hsend. simpl. split.
        -- intros _. split; [reflexivity|]. split; [reflexivity|].
           split; [reflexivity|]. now intros l2 [= <-].
        -- intros Hno. destruct (Hnot Hno).
      * intros l1 _. split; eauto.
      * intros l1 w1 [= <- <-]. rewrite Hsend. simpl. split.
        -- intros _. split; [reflexivity|]. split; [reflexivity|].
           split; [reflexivity|]. intros l2 [=].
        -- intros Hno. destruct (Hnot Hno).
      * intros l1 [=].
    + assert (Hno : ~ (session_id self <> "" /\ should_store_message self = true)).
      { intros Hyes. apply storing_spec in Hyes. congruence. }
      injection Hrun as <- <-; simpl; rewrite Hsent.
      split; [intros e w1 [=]|]. split.
      * intros l1 w1 [= <- <-]. split; [intros Hyes; now destruct Hno|].
        intros _. repeat split; try reflexivity. exact Hvalue.
      * intros l1 _. split; [intros Hyes; now destruct Hno|].
        intros [l2 Hl2]. apply (f_equal (@length loc)) in Hl2.
        rewrite length_app in Hl2. simpl in Hl2. lia.
  - rewrite (message_response_prepare_fails self w w0 e Hp) in Hrun.
    injection Hrun as <- <-.
    destruct (quiet_prepare self _ _ _ Hp) as (Hsent & _ & _).
    split; [|split].
    + intros e1 w1 [= <- <-]. auto.
    + intros l0 w1 [=].
    + intros l [=].
Qed.

(** ** Reusing the input entity *)

Lemma deref_insert (h : heap) (l : loc) (m : Message) :
  deref (<[l := m]> h) l = m.
Proof. unfold deref. apply lookup_total_insert_eq. Qed.

Lemma deref_Some (h : heap) (l : loc) (m : Message) :
  h !! l = Some m -> deref h l = m.
Proof. unfold deref. apply lookup_total_correct. Qed.

(** Lines 124-145 on a [Message] input: the entity built is the input
    entity, updated where it is stored. *)
Lemma prepare_reuses (self : ChatOutput) (w w0 : World) (l l0 : loc) (m : Message) :
  input_value self = VMessage l ->
  w_heap w !! l = Some m ->
  prepare self w = (Ok l0, w0) ->
  l0 = l /\
  dom (w_heap w0) = dom (w_heap w) /\
  (forall l', l' <> l -> w_heap w0 !! l' = w_heap w !! l') /\
  exists m', w_heap w0 !! l = Some m' /\
    convert_to_string self (w_heap w) = Ok (m_text m') /\
    m_other m' = m_other m /\
    p_other (m_properties m') = p_other (m_properties m).
Proof.
  intros Hin Hm. unfold prepare. rewrite Hin.
  unfold sbind, reading, modify, ret.
  destruct (convert_to_string self (w_heap w)) as [text|e]; [|discriminate].
  destruct (run (get_properties_from_source_component self (w_heap w)))
    as [props|e]; [|discriminate].
  cbn [w_heap set_heap].
  repeat (rewrite deref_insert || rewrite insert_insert_eq).
  destruct (_build_source _ _ _ _) as [src|e]; [|discriminate].
  intros [= <- <-]. cbn [w_heap set_heap].
  repeat (rewrite deref_insert || rewrite insert_insert_eq).
  split; [reflexivity|]. split; [|split].
  - apply dom_insert_lookup_L. now rewrite Hm.
  - intros l' Hne. now apply lookup_insert_ne.
  - eexists. split; [apply lookup_insert_eq|].
    rewrite (deref_Some _ _ _ Hm). simpl. auto.
Qed.

(** Lines 124-145 on any other input: the entity built is a new one, and
    the stored entities are left as they are. *)
Lemma prepare_allocates (self : ChatOutput) (w w0 : World) (l0 : loc) :
  isinstance_Message (input_value self) = false ->
  prepare self w = (Ok l0, w0) ->
  (l0 ∉ dom (w_heap w)) /\
  dom (w_heap w0) = {[l0]} ∪ dom (w_heap w) /\
  (forall l', l' <> l0 -> w_heap w0 !! l' = w_heap w !! l').
Proof.
  intros Hin. unfold prepare.
  unfold sbind, reading, modify, ret.
  destruct (convert_to_string self (w_heap w)) as [text|e]; [|discriminate].
  destruct (run (get_properties_from_source_component self (w_heap w)))
    as [props|e]; [|discriminate].
  unfold allocate.
  destruct (input_value self); try discriminate Hin;
    cbn [w_heap set_heap];
    repeat (rewrite deref_insert || rewrite insert_insert_eq);
    (destruct (_build_source _ _ _ _) as [src|e]; [|discriminate]);
    intros [= <- <-]; cbn [w_heap set_heap];
    repeat (rewrite deref_insert || rewrite insert_insert_eq);
    (split; [apply is_fresh|]);
    (split; [apply dom_insert_L|]);
    intros l' Hne; now apply lookup_insert_ne.
Qed.

(** C6: when the input is a [Message], [message_response] builds no new
    entity: it overwrites the text of the input entity where it is stored,
    and when nothing is stored through [send_message] that entity is the one
    returned; its fields other than the text, the sender, the sender name,
    the session id, the flow id and the properties are as they were, and so
    are the properties other than source, icon and colours.  When the
    message is stored, the entity handed to [send_message] is the input
    entity. *)
Theorem message_input_reused (self : ChatOutput) (w w' : World) (l r : loc)
    (m : Message) :
  input_value self = VMessage l ->
  w_heap w !! l = Some m ->
  message_response self w = (Ok r, w') ->
  ((session_id self = "" \/ should_store_message self = false) ->
   r = l /\
   dom (w_heap w') = dom (w_heap w) /\
   (forall l', l' <> l -> w_heap w' !! l' = w_heap w !! l') /\
   exists m', w_heap w' !! l = Some m' /\
     convert_to_string self (w_heap w) = Ok (m_text m') /\
     m_other m' = m_other m /\
     p_other (m_properties m') = p_other (m_properties m)) /\
  ((session_id self <> "" /\ should_store_message self = true) ->
   w_sent w' = (w_sent w ++ [l])%list).
Proof.
  intros Hin Hm Hrun.
  destruct (prepare self w) as [[l0|e] w0] eqn:Hp.
  - destruct (prepare_reuses self w w0 l l0 m Hin Hm Hp) as (-> & Hdom & Hframe & Hm').
    destruct (quiet_prepare self _ _ _ Hp) as (Hsent & _ & _).
    rewrite (message_response_after_prepare self w w0 l Hp) in Hrun.
    destruct (storing self) eqn:Hst.
    + pose proof (proj1 (storing_spec self) Hst) as Hyes. split.
      * intros [Hno | Hno]; destruct Hyes; congruence.
      * intros _.
        destruct (send_message (w_heap w0) l) as [[l1|cls b] h']; [|discriminate].
        injection Hrun as <- <-. simpl. now rewrite Hsent.
    + injection Hrun as <- <-. simpl. split.
      * intros _. auto.
      * intros Hyes. apply storing_spec in Hyes. congruence.
  - rewrite (message_response_prepare_fails self w w0 e Hp) in Hrun. discriminate.
Qed.

(** ** The steps of a run *)

Lemma set_heap_set_heap (h1 h2 : heap) (w : World) :
  set_heap h1 (set_heap h2 w) = set_heap h1 w.
Proof. reflexivity. Qed.

(** Lines 124-145, step by step. *)
Lemma prepare_steps (self : ChatOutput) (w : World) :
  prepare self w =
  match convert_to_string self (w_heap w) with
  | Err e => (Err e, w)
  | Ok text =>
      match run (get_properties_from_source_component self (w_heap w)) with
      | Err e => (Err e, w)
      | Ok props =>
          let l := target self (w_heap w) in
          let m := base self (w_heap w) in
          let h1 := <[l := identified self text m]> (w_heap w) in
          match _build_source h1 (props_source_id props)
                  (props_display_name props) (props_source props) with
          | Err e => (Err e, set_heap h1 w)
          | Ok src =>
              (Ok l, set_heap (<[l := styled self text props src m]> (w_heap w)) w)
          end
      end
  end.
Proof.
  unfold prepare, sbind at 1, reading at 1.
  destruct (convert_to_string self (w_heap w)) as [text|e]; [|reflexivity].
  unfold sbind at 1, reading at 1.
  destruct (run (get_properties_from_source_component self (w_heap w)))
    as [props|e]; [|reflexivity].
  unfold target, base, styled, identified, chosen_icon.
  destruct (input_value self);
    unfold sbind, reading, modify, allocate, ret, Message_new;
    cbn [w_heap set_heap];
    repeat (rewrite deref_insert || rewrite insert_insert_eq);
    (destruct (_build_source _ _ _ _) as [src|e];
     [|rewrite ?set_heap_set_heap; reflexivity]);
    cbn [w_heap set_heap];
    repeat (rewrite deref_insert || rewrite insert_insert_eq);
    reflexivity.
Qed.

Lemma not_storing (self : ChatOutput) :
  session_id self = "" \/ should_store_message self = false ->
  storing self = false.
Proof.
  intros H. destruct (storing self) eqn:Hst; [|reflexivity].
  apply storing_spec in Hst as [H1 H2]. destruct H; congruence.
Qed.

(** A run that returns without storing, step by step. *)
Lemma run_without_storing (self : ChatOutput) (w w' : World) (r : loc) :
  message_response self w = (Ok r, w') ->
  session_id self = "" \/ should_store_message self = false ->
  exists text props src,
    convert_to_string self (w_heap w) = Ok text /\
    get_properties_from_source_component self (w_heap w) = Returns props /\
    _build_source
      (<[target self (w_heap w) := identified self text (base self (w_heap w))]>
         (w_heap w))
      (props_source_id props) (props_display_name props) (props_source props)
      = Ok src /\
    r = target self (w_heap w) /\
    w_heap w' =
      <[r := styled self text props src (base self (w_heap w))]> (w_heap w) /\
    w_sent w' = w_sent w /\ w_message_value w' = w_message_value w.
Proof.
  intros Hrun Hno. apply not_storing in Hno.
  destruct (prepare self w) as [[l0|e] w0] eqn:Hp.
  - rewrite (message_response_after_prepare self w w0 l0 Hp), Hno in Hrun.
    injection Hrun as <- <-.
    rewrite prepare_steps in Hp.
    destruct (convert_to_string self (w_heap w)) as [text|e]; [|discriminate].
    destruct (get_properties_from_source_component self (w_heap w))
      as [props|cls b]; [|discriminate].
    cbn [run] in Hp.
    destruct (_build_source _ _ _ _) as [src|e] eqn:Hsrc; [|discriminate].
    injection Hp as <- <-. exists text, props, src. simpl. auto 10.
  - rewrite (message_response_prepare_fails self w w0 e Hp) in Hrun. discriminate.
Qed.

(** X9: the identity of the entity built: the text is what [convert_to_string]
    returned on the store as it was, and the sender, the sender name and the
    session id are the component's, the flow id its graph's or [None]. *)
Theorem built_entity_identity (self : ChatOutput) (w w' : World) (r : loc) :
  message_response self w = (Ok r, w') ->
  session_id self = "" \/ should_store_message self = false ->
  exists m', w_heap w' !! r = Some m' /\
    convert_to_string self (w_heap w) = Ok (m_text m') /\
    m_sender m' = VStr (sender self) /\
    m_sender_name m' = VStr (sender_name self) /\
    m_session_id m' = VStr (session_id self) /\
    m_flow_id m' = match graph self with Some g => flow_id g | None => VNone end.
Proof.
  intros Hrun Hno.
  destruct (run_without_storing self w w' r Hrun Hno)
    as (text & props & src & Hc & _ & _ & _ & Hh & _).
  eexists. split; [rewrite Hh; apply lookup_insert_eq|].
  simpl. auto 10.
Qed.

(** X10: the presentation of the entity built: a non-empty [chat_icon] replaces
    the icon of the source component, which is used otherwise; the colours
    are the component's; the source is what [_build_source] made of the
    source component's id, display name and source. *)
Theorem built_entity_presentation (self : ChatOutput) (w w' : World) (r : loc) :
  message_response self w = (Ok r, w') ->
  session_id self = "" \/ should_store_message self = false ->
  exists m' props, w_heap w' !! r = Some m' /\
    get_properties_from_source_component self (w_heap w) = Returns props /\
    (chat_icon self <> "" -> p_icon (m_properties m') = VStr (chat_icon self)) /\
    (chat_icon self = "" -> p_icon (m_properties m') = props_icon props) /\
    p_background_color (m_properties m') = VStr (background_color self) /\
    p_text_color (m_properties m') = VStr (text_color self) /\
    (forall x, src_id (p_source (m_properties m')) = Some x <->
               (props_source_id props = Some x /\ x <> "")) /\
    (forall x, src_display_name (p_source (m_properties m')) = Some x <->
               (props_display_name props = Some x /\ x <> "")) /\
    p_other (m_properties m') = p_other (m_properties (base self (w_heap w))).
Proof.
  intros Hrun Hno.
  destruct (run_without_storing self w w' r Hrun Hno)
    as (text & props & src & _ & Hp & Hsrc & _ & Hh & _).
  eexists. exists props. split; [rewrite Hh; apply lookup_insert_eq|].
  split; [exact Hp|]. simpl. unfold chosen_icon.
  split; [|split].
  - intros Hicon. destruct (chat_icon self); [now destruct Hicon | reflexivity].
  - intros ->. reflexivity.
  - split; [reflexivity|]. split; [reflexivity|].
    unfold _build_source in Hsrc.
    apply bind_Ok in Hsrc as (present & _ & Hsrc).
    apply bind_Ok in Hsrc as (d_source & _ & [= <-]). simpl.
    assert (Hopt : forall o x,
              (if truthy_opt o then o else None) = Some x <-> (o = Some x /\ x <> "")).
    { intros [[|c s]|] x; simpl; split; try discriminate.
      - intros ([= <-] & Hx). now destruct Hx.
      - intros [= <-]. split; [reflexivity | discriminate].
      - now intros ([= <-] & _).
      - intros ([=] & _). }
    split; [apply Hopt|]. split; [apply Hopt|]. reflexivity.
Qed.

(** X11: a run that returns without storing leaves every other entity as it was;
    on an input that is not a [Message] the entity returned is new: its
    location held nothing before. *)
Theorem other_entities_untouched (self : ChatOutput) (w w' : World) (r : loc) :
  message_response self w = (Ok r, w') ->
  session_id self = "" \/ should_store_message self = false ->
  (forall l', l' <> r -> w_heap w' !! l' = w_heap w !! l') /\
  (isinstance_Message (input_value self) = false ->
   w_heap w !! r = None /\ dom (w_heap w') = {[r]} ∪ dom (w_heap w)) /\
  w_sent w' = w_sent w /\ w_message_value w' = w_message_value w /\
  w_status w' = Some r.
Proof.
  intros Hrun Hno.
  destruct (run_without_storing self w w' r Hrun Hno)
    as (text & props & src & _ & _ & _ & Hr & Hh & Hsent & Hvalue).
  split; [|split; [|split; [|split]]]; try assumption.
  - intros l' Hne. rewrite Hh. now apply lookup_insert_ne.
  - intros Hin. split.
    + rewrite Hr. unfold target.
      destruct (input_value self); try discriminate Hin;
        apply not_elem_of_dom, is_fresh.
    + rewrite Hh. apply dom_insert_L.
  - apply not_storing in Hno.
    destruct (prepare self w) as [[l0|e] w0] eqn:Hp.
    + rewrite (message_response_after_prepare self w w0 l0 Hp), Hno in Hrun.
      now injection Hrun as <- <-.
    + rewrite (message_response_prepare_fails self w w0 e Hp) in Hrun. discriminate.
Qed.

(** X12: when [convert_to_string] or [get_properties_from_source_component]
    raises, the run raises the same and the world is as it was: nothing is
    written and nothing is sent. *)
Theorem early_failure_writes_nothing (self : ChatOutput) (w : World) (e : exn) :
  convert_to_string self (w_heap w) = Err e \/
  (exists text, convert_to_string self (w_heap w) = Ok text /\
     run (get_properties_from_source_component self (w_heap w)) = Err e) ->
  message_response self w = (Err e, w).
Proof.
  intros H. apply message_response_prepare_fails. rewrite prepare_steps.
  destruct H as [-> | (text & -> & ->)]; reflexivity.
Qed.

(** X13: when [_build_source] raises on a [Message] input, the run raises the
    same, nothing is sent, but the input entity has already been written:
    its text, sender, sender name, session id and flow id are the new ones,
    its properties still the old ones. *)
Theorem late_failure_keeps_overwrite (self : ChatOutput) (w : World) (l : loc)
    (m : Message) (text : Value) (props : SourceProps) (e : exn) :
  input_value self = VMessage l ->
  w_heap w !! l = Some m ->
  convert_to_string self (w_heap w) = Ok text ->
  get_properties_from_source_component self (w_heap w) = Returns props ->
  _build_source (<[l := identified self text m]> (w_heap w))
    (props_source_id props) (props_display_name props) (props_source props)
    = Err e ->
  exists w' m',
    message_response self w = (Err e, w') /\
    w_heap w' !! l = Some m' /\
    m_text m' = text /\
    m_sender m' = VStr (sender self) /\
    m_session_id m' = VStr (session_id self) /\
    m_properties m' = m_properties m /\
    m_other m' = m_other m /\
    w_sent w' = w_sent w /\ w_status w' = w_status w.
Proof.
  intros Hin Hm Hc Hp Hsrc.
  exists (set_heap (<[l := identified self text m]> (w_heap w)) w),
    (identified self text m).
  split.
  - apply message_response_prepare_fails. rewrite prepare_steps, Hc, Hp.
    unfold target, base. rewrite Hin, (deref_Some _ _ _ Hm).
    cbn [run]. now rewrite Hsrc.
  - split; [apply lookup_insert_eq|]. simpl. auto 10.
Qed.

(** X14: with a source that is a text or [None], nothing can fail between the
    property lookup and line 147: a run that does not store returns. *)
Theorem text_source_run_returns (self : ChatOutput) (w : World) (text : Value)
    (props : SourceProps) :
  convert_to_string self (w_heap w) = Ok text ->
  get_properties_from_source_component self (w_heap w) = Returns props ->
  props_source props = VNone \/ (exists s, props_source props = VStr s) ->
  session_id self = "" \/ should_store_message self = false ->
  exists w', message_response self w = (Ok (target self (w_heap w)), w').
Proof.
  intros Hc Hp Hsrc Hno. apply not_storing in Hno.
  assert (Hb : forall h, exists src,
    _build_source h (props_source_id props) (props_display_name props)
      (props_source props) = Ok src).
  { intros h. destruct Hsrc as [-> | (s & ->)]; unfold _build_source; simpl.
    - eauto.
    - destruct (negb (is_empty s)); simpl; eauto. }
  destruct (Hb (<[target self (w_heap w) :=
                   identified self text (base self (w_heap w))]> (w_heap w)))
    as (src & Hsrc').
  assert (Hprep : prepare self w =
    (Ok (target self (w_heap w)),
     set_heap (<[target self (w_heap w) :=
                  styled self text props src (base self (w_heap w))]> (w_heap w)) w)).
  { rewrite prepare_steps, Hc, Hp. cbn [run]. now rewrite Hsrc'. }
  rewrite (message_response_after_prepare self w _ _ Hprep), Hno. eauto.
Qed.

(** ** Normal forms *)

Lemma lstrip_id (s : string) :
  (forall c, first_char s = Some c -> py_isspace c = false) -> lstrip s = s.
Proof.
  destruct s as [|a s]; simpl; [reflexivity|].
  intros H. now rewrite (H a eq_refl).
Qed.

Lemma rstrip_id (s : string) :
  (forall c, last_char s = Some c -> py_isspace c = false) -> rstrip s = s.
Proof.
  induction s as [|a s IH]; [reflexivity|].
  destruct s as [|b r].
  - intros H. simpl. now rewrite (H a eq_refl).
  - intros H. rewrite last_char_cons in H.
    change (rstrip (String a (String b r)))
      with (match rstrip (String b r) with
            | EmptyString =>
                if py_isspace a then EmptyString else String a EmptyString
            | r' => String a r'
            end).
    now rewrite (IH H).
Qed.

Lemma strip_trimmed_id (s : string) : trimmed s -> strip s = s.
Proof.
  intros [Hfirst Hlast]. unfold strip.
  rewrite (lstrip_id s Hfirst). now apply rstrip_id.
Qed.

Lemma validate_str (self : ChatOutput) (s : string) :
  input_value self = VStr s -> _validate_input self = Ok tt.
Proof. intros H. unfold _validate_input. now rewrite H. Qed.

Lemma convert_text (self : ChatOutput) (h : heap) (s : string) :
  input_value self = VStr s -> convert_to_string self h = Ok (VStr (strip s)).
Proof.
  intros H. unfold convert_to_string.
  rewrite (validate_str self s H), H. reflexivity.
Qed.

(** X1: the text that [convert_to_string] returns for a text, a message or a
    record is a fixed point: given back as a text input, to any component
    and on any store, it is returned as it is. *)
Theorem renormalize_unchanged (self self' : ChatOutput) (h h' : heap) (s : string) :
  isinstance_str (input_value self) || isinstance_Message (input_value self)
  || isinstance_Data (input_value self) = true ->
  convert_to_string self h = Ok (VStr s) ->
  input_value self' = VStr s ->
  convert_to_string self' h' = Ok (VStr s).
Proof.
  intros Hkind Hc Hin.
  destruct (text_message_record_trimmed self h (VStr s) Hkind Hc)
    as (s0 & [= <-] & Htrim).
  rewrite (convert_text self' h' s Hin). now rewrite strip_trimmed_id.
Qed.

(** ** Records *)

Lemma entry_skipped_blank (h : heap) (v : Value) :
  blank v = true -> entry_skipped h v = Ok true.
Proof.
  destruct v as [| | |s| | | | | | | | | |]; simpl; try discriminate;
    [reflexivity|].
  destruct s; [reflexivity | discriminate].
Qed.

Lemma payload_lines_blank (h : heap) (before after : list (Value * Value))
    (k v : Value) (lines : list string) :
  blank v = true ->
  payload_lines h (before ++ (k, v) :: after) lines =
  payload_lines h (before ++ after) lines.
Proof.
  intros Hv. rewrite !payload_lines_app.
  destruct (payload_lines h before lines) as [ls|e]; [|reflexivity].
  simpl. now rewrite (entry_skipped_blank h v Hv).
Qed.

Lemma value_text_or_not (value : option Value) :
  (exists s, value = Some (VStr s)) \/ (forall s, value <> Some (VStr s)).
Proof.
  destruct value as [[]|]; try (right; intros s0; discriminate).
  left. eauto.
Qed.

Lemma convert_Data (self : ChatOutput) (h : heap) (value data : option Value)
    (sp : Special) :
  input_value self = VData value data sp ->
  convert_to_string self h =
  (s <- _serialize_data h (VData value data sp) ;; Ok (VStr s)).
Proof.
  intros Hin. unfold convert_to_string.
  rewrite validate_Data by (now rewrite Hin). now rewrite Hin.
Qed.

Lemma serialize_value_text (h : heap) (s : string)
    (entries : list (Value * Value)) (sp : Special) :
  _serialize_data h (VData (Some (VStr s)) (Some (VDict entries)) sp)
  = Ok (strip s).
Proof. reflexivity. Qed.

Lemma direct_value_without (before after : list (Value * Value)) (k v : Value) :
  k <> VStr "value" ->
  direct_value (before ++ (k, v) :: after) = direct_value (before ++ after).
Proof.
  intros Hk. induction before as [|[k0 v0] before IH]; simpl.
  - destruct k; try reflexivity.
    destruct (String.eqb s "value") eqn:Hs; [|reflexivity].
    apply String.eqb_eq in Hs. subst s. now destruct Hk.
  - destruct k0; try exact IH.
    destruct (String.eqb s "value"); [reflexivity | exact IH].
Qed.

(** X5: in a record as the library builds it from its payload, an entry
    under a key other than ["value"] whose value is [None] or the empty
    text leaves no trace: the record renders as it does without the entry,
    and the key of the entry is not even looked at. *)
Theorem blank_entry_ignored (self self' : ChatOutput) (h : heap) (sp : Special)
    (before after : list (Value * Value)) (k v : Value) :
  input_value self = Data_of (before ++ (k, v) :: after) sp ->
  input_value self' = Data_of (before ++ after) sp ->
  blank v = true ->
  k <> VStr "value" ->
  convert_to_string self h = convert_to_string self' h.
Proof.
  intros Hin Hin' Hv Hk. unfold Data_of in Hin, Hin'.
  rewrite (direct_value_without before after k v Hk) in Hin.
  rewrite (convert_Data self h _ _ _ Hin), (convert_Data self' h _ _ _ Hin').
  destruct (value_text_or_not (direct_value (before ++ after)))
    as [(s & ->) | Hvalue].
  - now rewrite !serialize_value_text.
  - rewrite !serialize_payload by (assumption || reflexivity).
    cbn [dict_items]. now rewrite (payload_lines_blank h before after k v [] Hv).
Qed.

Lemma payload_lines_text (h : heap) (entries : list (string * string))
    (lines : list string) :
  payload_lines h (text_entries entries) lines =
  Ok (lines ++ map entry_line
                 (List.filter (fun kv => negb (is_empty (snd kv))) entries))%list.
Proof.
  revert lines. induction entries as [|[k v] rest IH]; intros lines; simpl.
  - now rewrite app_nil_r.
  - destruct v as [|c v]; simpl.
    + apply IH.
    + rewrite IH. now rewrite <- app_assoc.
Qed.

(** X6: a record without a direct text value whose payload holds texts under
    text keys renders as one line ["key: value"] per entry whose value is
    not empty, in the order of the payload, joined with newline and
    stripped as a whole; with no such entry the result is the empty text. *)
Theorem text_payload_rendering (self : ChatOutput) (h : heap)
    (value : option Value) (sp : Special) (entries : list (string * string)) :
  input_value self = VData value (Some (VDict (text_entries entries))) sp ->
  (forall s, value <> Some (VStr s)) ->
  convert_to_string self h =
  Ok (VStr (strip (join LF (map entry_line
              (List.filter (fun kv => negb (is_empty (snd kv))) entries))))).
Proof.
  intros Hin Hvalue.
  rewrite (convert_Data self h _ _ _ Hin).
  rewrite serialize_payload by (assumption || reflexivity).
  cbn [dict_items]. rewrite payload_lines_text. cbn [bind app].
  destruct (map entry_line _); reflexivity.
Qed.

(** A record whose payload is not a dict: the lookup of line 157 raises
    [TypeError], before any rendering. *)
Lemma record_payload_not_dict (self : ChatOutput) (h : heap)
    (value data : option Value) (sp : Special) :
  input_value self = VData value data sp ->
  (forall payload, data = Some payload -> isinstance_dict payload = false) ->
  convert_to_string self h = Err (Raised "TypeError" true).
Proof.
  intros Hin Hdata. rewrite (convert_Data self h _ _ _ Hin).
  unfold _serialize_data, value_lookup, py_getattr_or_None. cbn [py_getattr].
  replace (String.eqb "data" "value") with false by reflexivity.
  replace (String.eqb "data" "data") with true by reflexivity.
  destruct data as [payload|]; [rewrite (Hdata payload eq_refl)|]; reflexivity.
Qed.

(** ** Frames *)

Lemma convert_DataFrame (self : ChatOutput) (h : heap) (df value : option Value)
    (sp : Special) :
  input_value self = VDataFrame df value sp ->
  convert_to_string self h =
  (s <- frame_to_string h (VDataFrame df value sp) ;; Ok (VStr s)).
Proof.
  intros Hin. unfold convert_to_string, _validate_input. now rewrite Hin.
Qed.

Lemma frame_value_only (h : heap) (v : Value) (sp : Special) :
  frame_to_string h (VDataFrame None (Some v) sp) =
  if negb (is_None v) then try_except (py_head_to_string v) (py_str h v)
  else run (sp_str sp).
Proof. reflexivity. Qed.

(** X8: on a frame without ["df"] attribute whose ["value"] attribute is not
    [None]: when that value has no [head] (it is not a tabular handle) or
    its rendering raises an ordinary exception, the result is the [str] of
    the value; the call raises only if that [str] raises too, or if the
    rendering raised an exception that is not an [Exception]. *)
Theorem frame_value_degrades (self : ChatOutput) (h : heap) (v : Value)
    (sp : Special) :
  input_value self = VDataFrame None (Some v) sp ->
  v <> VNone ->
  (py_head_to_string v = Err AttributeError \/
   exists cls, py_head_to_string v = Err (Raised cls true)) ->
  convert_to_string self h = (s <- py_str h v ;; Ok (VStr s)).
Proof.
  intros Hin Hv Hfail.
  rewrite (convert_DataFrame self h _ _ _ Hin), frame_value_only.
  assert (Hn : is_None v = false).
  { destruct v; try reflexivity. now destruct Hv. }
  rewrite Hn. cbn [negb].
  destruct Hfail as [-> | (cls & ->)]; reflexivity.
Qed.

(** A frame with neither attribute renders as its own [str]. *)
Lemma frame_without_handle (self : ChatOutput) (h : heap) (sp : Special) :
  input_value self = VDataFrame None None sp ->
  convert_to_string self h = (s <- run (sp_str sp) ;; Ok (VStr s)).
Proof.
  intros Hin. rewrite (convert_DataFrame self h _ _ _ Hin). reflexivity.
Qed.

(** ** Joining lists *)

Lemma string_app_assoc (a b c : string) :
  String.append (String.append a b) c = String.append a (String.append b c).
Proof.
  induction a as [|x a IH]; [reflexivity|].
  change (String x (String.append (String.append a b) c)
          = String x (String.append a (String.append b c))).
  now rewrite IH.
Qed.

Lemma join_app (sep : string) (a b : list string) :
  a <> [] -> b <> [] ->
  join sep (a ++ b) = (join sep a ++ sep ++ join sep b)%string.
Proof.
  intros Ha Hb. induction a as [|p a IH]; [now destruct Ha|].
  destruct a as [|q a].
  - destruct b as [|r b]; [now destruct Hb | reflexivity].
  - change (join sep ((p :: q :: a) ++ b))
      with (p ++ sep ++ join sep ((q :: a) ++ b))%string.
    rewrite IH by discriminate.
    change (join sep (p :: q :: a)) with (p ++ sep ++ join sep (q :: a))%string.
    now rewrite !string_app_assoc.
Qed.

Lemma convert_list (self : ChatOutput) (h : heap) (items : list Value) :
  input_value self = VList items ->
  convert_to_string self h =
  (converted <- mapM (fun item => run (safe_convert h item (clean_data self)))
                     items ;;
   Ok (VStr (join LF (strip <$> omap id converted)))).
Proof.
  intros Hin. unfold convert_to_string.
  rewrite validate_list by (now rewrite Hin). rewrite Hin. simpl.
  rewrite convert_items_acc.
  destruct (mapM _ items) as [ps|e]; simpl; [|reflexivity].
  now rewrite stripped_parts_omap.
Qed.

Lemma some_text_kept {A} (f : A -> Result (option string)) (l : list A)
    (ps : list (option string)) (x : A) (p : string) :
  mapM f l = Ok ps -> x ∈ l -> f x = Ok (Some p) -> omap id ps <> [].
Proof.
  revert ps. induction l as [|a l IH]; intros ps Hm Hx Hf.
  - inversion Hx.
  - simpl in Hm. apply bind_Ok in Hm as (b & Hb & Hm).
    apply bind_Ok in Hm as (bs & Hbs & [= <-]).
    apply elem_of_cons in Hx as [<- | Hx].
    + rewrite Hf in Hb. injection Hb as <-. discriminate.
    + destruct b as [t|]; simpl; [discriminate|]. now apply (IH bs).
Qed.

(** X3: lists compose: when two lists each hold an element that converts to a
    text, the rendering of their concatenation is the rendering of the
    first, a newline, and the rendering of the second. *)
Theorem list_concatenation (self1 self2 self12 : ChatOutput) (h : heap)
    (items1 items2 : list Value) (s1 s2 : string) :
  input_value self1 = VList items1 ->
  input_value self2 = VList items2 ->
  input_value self12 = VList (items1 ++ items2) ->
  clean_data self1 = clean_data self12 ->
  clean_data self2 = clean_data self12 ->
  convert_to_string self1 h = Ok (VStr s1) ->
  convert_to_string self2 h = Ok (VStr s2) ->
  (exists x p, x ∈ items1 /\
     safe_convert h x (clean_data self12) = Returns (Some p)) ->
  (exists x p, x ∈ items2 /\
     safe_convert h x (clean_data self12) = Returns (Some p)) ->
  convert_to_string self12 h = Ok (VStr (s1 ++ LF ++ s2)).
Proof.
  intros Hin1 Hin2 Hin12 Hc1 Hc2 Hr1 Hr2 (x1 & p1 & Hx1 & Hp1) (x2 & p2 & Hx2 & Hp2).
  rewrite (convert_list self1 h items1 Hin1), Hc1 in Hr1.
  rewrite (convert_list self2 h items2 Hin2), Hc2 in Hr2.
  rewrite (convert_list self12 h _ Hin12), mapM_app.
  apply bind_Ok in Hr1 as (ps1 & Hm1 & [= <-]).
  apply bind_Ok in Hr2 as (ps2 & Hm2 & [= <-]).
  rewrite Hm1, Hm2. cbn [bind].
  rewrite omap_app, fmap_app. rewrite join_app; [reflexivity| |].
  - intros Hnil. apply fmap_nil_inv in Hnil.
    apply (some_text_kept _ _ _ x1 p1 Hm1 Hx1); [now rewrite Hp1 | exact Hnil].
  - intros Hnil. apply fmap_nil_inv in Hnil.
    apply (some_text_kept _ _ _ x2 p2 Hm2 Hx2); [now rewrite Hp2 | exact Hnil].
Qed.

End Component.

(** * The properties on concrete inputs *)

Abbreviation normalize :=
  (convert_to_string Sample.Message_special Sample.safe_convert).

Abbreviation build :=
  (message_response Sample.Message_special blank_Message Sample.safe_convert
     Sample.get_properties_from_source_component Sample.send_message).

(** C1, as stated, fails: a conversion that is the empty string is not
    excluded; it leaves an empty line in the result. *)
Lemma list_keeps_empty_conversion :
  let items := [VStr "a"; VStr ""; VStr "b"] in
  mapM (fun item => run (Sample.safe_convert ∅ item true)) items
    = Ok [Some "a"; Some ""; Some "b"] /\
  normalize (Sample.given (VList items)) ∅ = Ok (VStr ("a" ++ LF ++ LF ++ "b")) /\
  spec_list_text [Some "a"; Some ""; Some "b"] = "a" ++ LF ++ "b" /\
  normalize (Sample.given (VList items)) ∅
    <> Ok (VStr (spec_list_text [Some "a"; Some ""; Some "b"])).
Proof. repeat split; try reflexivity. discriminate. Qed.

Lemma normalize_list_witness :
  normalize (Sample.given (VList [VStr " a "; VInt 1; VStr "b"])) ∅
    = Ok (VStr ("a" ++ LF ++ "b")).
Proof.
  exact (proj1 (normalize_list Sample.Message_special Sample.safe_convert
                  (Sample.given (VList [VStr " a "; VInt 1; VStr "b"])) ∅ eq_refl)).
Defined.

(** C2, as stated, fails: the [str] of an entry value that is neither a
    dict nor a list is not guarded, and the [repr] that stands in for the
    [str] of a list is not guarded either; the exception ends the call and
    no entry is rendered. *)
Lemma entry_str_failure_propagates :
  normalize
    (Sample.given (Sample.record [(VStr "a", VStr "x"); (VStr "k", Sample.widget);
                              (VStr "d", VStr "y")])) ∅
    = Err (Raised "RuntimeError" true) /\
  normalize
    (Sample.given (Sample.record [(VStr "a", VStr "x");
                              (VStr "k", VList [Sample.widget]);
                              (VStr "d", VStr "y")])) ∅
    = Err (Raised "RuntimeError" true).
Proof. split; reflexivity. Qed.

Lemma nested_value_fallback_witness :
  normalize
    (Sample.given (Sample.record [(VStr "a", VStr "x"); (VStr "k", Sample.odd_dict);
                              (VStr "d", VStr "y")])) ∅
    = Ok (VStr ("a: x" ++ LF ++ "k: <Odd>" ++ LF ++ "d: y")).
Proof.
  refine (nested_value_fallback Sample.Message_special Sample.safe_convert
            (Sample.given (Sample.record [(VStr "a", VStr "x"); (VStr "k", Sample.odd_dict);
                                      (VStr "d", VStr "y")])) ∅
            None _ (Sample.plain "<Data>")
            [(VStr "a", VStr "x")] [(VStr "d", VStr "y")] (VStr "k") Sample.odd_dict
            ["a: x"] ["d: y"] "k" "<Odd>" (Raised "RuntimeError" true)
            eq_refl _ eq_refl eq_refl eq_refl eq_refl eq_refl eq_refl eq_refl
            eq_refl eq_refl eq_refl).
  intros s. discriminate.
Defined.

(** C3, as stated, fails: on inputs that are not [None] and are of a
    recognized class the call can raise a [ValueError] (from the [str] of a
    payload value, line 172, or from the truth test of a column of the
    table library, line 210) and a [TypeError] (from the lookup of line 157
    on a record whose payload is not a dict). *)
Lemma validation_class_not_exact :
  let odd := VObject "Odd" []
               {| sp_str := Raises "ValueError" true;
                  sp_repr := Returns "<Odd>";
                  sp_bool := Returns true; sp_eq_empty := Returns false |} in
  let entry := Sample.given (Sample.record [(VStr "k", odd)]) in
  let frame := Sample.given (VDataFrame (Some Sample.series) None
                               (Sample.plain "<DataFrame>")) in
  let record := Sample.given (VData None (Some (VList []))
                                (Sample.plain "<Data>")) in
  (input_value entry <> VNone /\ recognized (input_value entry) = true /\
   exists e, normalize entry ∅ = Err e /\ py_class e = "ValueError") /\
  (input_value frame <> VNone /\ recognized (input_value frame) = true /\
   exists e, normalize frame ∅ = Err e /\ py_class e = "ValueError") /\
  (input_value record <> VNone /\ recognized (input_value record) = true /\
   exists e, normalize record ∅ = Err e /\ py_class e = "TypeError").
Proof.
  repeat split; try discriminate; eexists; split; reflexivity.
Qed.

Lemma validation_errors_witness :
  normalize (Sample.given VNone) ∅ = Err (ValueError "Input data cannot be None") /\
  normalize (Sample.given (VInt 3)) ∅ = Err (TypeError (EXPECTED ++ "int")).
Proof.
  split.
  - exact (proj1 (validation_errors Sample.Message_special Sample.safe_convert
                    (Sample.given VNone) ∅) eq_refl).
  - refine (proj1 (proj2 (validation_errors Sample.Message_special
                            Sample.safe_convert (Sample.given (VInt 3)) ∅))
              _ eq_refl).
    discriminate.
Defined.

Lemma record_payload_example_witness :
  normalize
    (Sample.given (Sample.record [(VStr "a", VStr "x"); (VStr "b", VStr "");
                              (VStr "c", VNone); (VStr "d", VStr "y")])) ∅
    = Ok (VStr ("a: x" ++ LF ++ "d: y")).
Proof.
  refine (record_payload_example Sample.Message_special Sample.safe_convert
            (Sample.given _) ∅ None (Sample.plain "<Data>") eq_refl _).
  intros s. discriminate.
Defined.

Lemma persist_iff_requested_witness :
  let self := Sample.component (VStr " hi ") "s1" true in
  (session_id self <> "" /\ should_store_message self = true) /\
  fst (build self (Sample.world ∅)) = Ok 1 /\
  exists l0, w_sent (snd (build self (Sample.world ∅))) = ([] ++ [l0])%list.
Proof.
  intros self. split; [split; [discriminate | reflexivity]|].
  assert (Hr : fst (build self (Sample.world ∅)) = Ok 1) by reflexivity.
  split; [exact Hr|].
  apply (proj2 (proj2
    (persist_iff_requested Sample.Message_special blank_Message
       Sample.safe_convert Sample.get_properties_from_source_component
       Sample.send_message self (Sample.world ∅)
       (snd (build self (Sample.world ∅))) (fst (build self (Sample.world ∅)))
       (surjective_pairing _))) 1 Hr).
  split; [discriminate | reflexivity].
Defined.

Lemma message_input_reused_witness :
  let self := Sample.component (VMessage 7) "" true in
  fst (build self Sample.one_message) = Ok 7 /\
  exists m', w_heap (snd (build self Sample.one_message)) !! 7 = Some m' /\
    normalize self (w_heap Sample.one_message) = Ok (m_text m') /\
    m_other m' = m_other Sample.greeting /\
    p_other (m_properties m') = p_other (m_properties Sample.greeting).
Proof.
  intros self.
  assert (Hr : build self Sample.one_message
               = (Ok 7, snd (build self Sample.one_message))) by reflexivity.
  split; [reflexivity|].
  apply (proj1
    (message_input_reused Sample.Message_special blank_Message
       Sample.safe_convert Sample.get_properties_from_source_component
       Sample.send_message self Sample.one_message
       (snd (build self Sample.one_message)) 7 7 Sample.greeting
       eq_refl eq_refl Hr)).
  left. reflexivity.
Defined.

(** C7, at a frame whose ["df"] attribute holds a column of the table
    library: the truth test of line 210 raises and no row is rendered,
    while the same column held under ["value"] is previewed by its first
    five rows. *)
Theorem frame_df_handle_truth_tested :
  normalize (Sample.given (VDataFrame (Some Sample.series) None
                               (Sample.plain "<DataFrame>"))) ∅
    = Err (Raised "ValueError" true) /\
  normalize (Sample.given (VDataFrame None (Some Sample.series)
                               (Sample.plain "<DataFrame>"))) ∅
    = Ok (VStr ("1" ++ LF ++ "2" ++ LF ++ "3" ++ LF ++ "4" ++ LF ++ "5")).
Proof. split; reflexivity. Qed.

Lemma data_template_inert_witness :
  normalize (with_data_template "{value}" (Sample.given (VStr " a "))) ∅
    = normalize (Sample.given (VStr " a ")) ∅.
Proof.
  exact (data_template_inert Sample.Message_special Sample.safe_convert
           _ _ ∅ (with_data_template_same "{value}" (Sample.given (VStr " a ")))).
Defined.

Lemma not_trimmed_leading (c : ascii) (s : string) :
  py_isspace c = true -> ~ trimmed (String c s).
Proof. intros Hc [Hfirst _]. specialize (Hfirst c eq_refl). congruence. Qed.

(** C9: on a text, a message or a record, the text [convert_to_string]
    returns has no leading and no trailing whitespace, whatever the
    collaborators are; on a list and on a frame it may have some. *)
Theorem trimmed_output_scope :
  (forall Message_special safe_convert self h x,
     isinstance_str (input_value self) || isinstance_Message (input_value self)
     || isinstance_Data (input_value self) = true ->
     convert_to_string Message_special safe_convert self h = Ok x ->
     exists s, x = VStr s /\ trimmed s) /\
  (exists Message_special safe_convert self h s,
     isinstance_list (input_value self) = true /\
     convert_to_string Message_special safe_convert self h = Ok (VStr s) /\
     ~ trimmed s) /\
  (exists Message_special safe_convert self h s,
     isinstance_DataFrame (input_value self) = true /\
     convert_to_string Message_special safe_convert self h = Ok (VStr s) /\
     ~ trimmed s).
Proof.
  split; [exact text_message_record_trimmed|]. split.
  - exists Sample.Message_special, Sample.safe_convert,
      (Sample.given (VList [VStr ""; VStr "a"])), ∅, (LF ++ "a").
    split; [reflexivity|]. split; [reflexivity|].
    now apply not_trimmed_leading.
  - exists Sample.Message_special, Sample.safe_convert,
      (Sample.given (VDataFrame None None (Sample.plain " a b"))), ∅, " a b".
    split; [reflexivity|]. split; [reflexivity|].
    now apply not_trimmed_leading.
Qed.

Lemma trimmed_output_scope_witness :
  exists s, VStr "a: x" = VStr s /\ trimmed s.
Proof.
  exact (proj1 trimmed_output_scope Sample.Message_special Sample.safe_convert
           (Sample.given (Sample.record [(VStr "a", VStr "x ")])) ∅
           (VStr "a: x") eq_refl eq_refl).
Defined.

(** The example of the specification: no id, the display name ["X"] and a
    source with the model name ["m"]. *)
Example build_source_example :
  _build_source Sample.Message_special ∅ None (Some "X") Sample.model
    = Ok {| src_id := None; src_display_name := Some "X";
            src_source := Some (VStr "m") |}.
Proof. reflexivity. Qed.

Lemma build_source_fields_witness :
  let built := {| src_id := None; src_display_name := None;
                  src_source := Some (VStr "granite") |} in
  _build_source Sample.Message_special ∅ (Some "") None (VStr "granite") = Ok built /\
  (forall x, src_id built = Some x <-> (Some "" = Some x /\ x <> "")).
Proof.
  intros built. split; [reflexivity|].
  exact (proj1 (build_source_fields Sample.Message_special ∅ (Some "") None
                  (VStr "granite") built eq_refl)).
Defined.

(** * Further properties on concrete inputs *)

(** X2: only a list is ever handed to [safe_convert]: on any other input the
    result depends neither on that collaborator nor on [clean_data] nor on
    any other option; line 221 is never reached. *)
Theorem only_lists_use_safe_convert :
  forall Message_special safe_convert1 safe_convert2 self1 self2 h,
    input_value self1 = input_value self2 ->
    isinstance_list (input_value self1) = false ->
    convert_to_string Message_special safe_convert1 self1 h
    = convert_to_string Message_special safe_convert2 self2 h.
Proof.
  intros MS sc1 sc2 self1 self2 h Hin Hlist.
  unfold convert_to_string, _validate_input. rewrite <- Hin.
  destruct (input_value self1); try discriminate Hlist; reflexivity.
Qed.

Lemma only_lists_use_safe_convert_witness :
  normalize (Sample.component (VStr " a ") "" false) ∅
  = convert_to_string Sample.Message_special (fun _ _ _ => Raises "Boom" true)
      (with_data_template "" (Sample.component (VStr " a ") "s" true)) ∅.
Proof.
  exact (only_lists_use_safe_convert Sample.Message_special Sample.safe_convert
           (fun _ _ _ => Raises "Boom" true)
           (Sample.component (VStr " a ") "" false)
           (with_data_template "" (Sample.component (VStr " a ") "s" true))
           ∅ eq_refl eq_refl).
Defined.

Lemma built_entity_identity_witness :
  let self := Sample.component (VStr " hi ") "" true in
  exists m', w_heap (snd (build self (Sample.world ∅))) !! 0 = Some m' /\
    normalize self ∅ = Ok (m_text m') /\
    m_sender m' = VStr "Machine" /\
    m_sender_name m' = VStr "AI" /\
    m_session_id m' = VStr "" /\
    m_flow_id m' = VNone.
Proof.
  intros self.
  assert (Hr : build self (Sample.world ∅)
               = (Ok 0, snd (build self (Sample.world ∅)))) by reflexivity.
  exact (built_entity_identity Sample.Message_special blank_Message
           Sample.safe_convert Sample.get_properties_from_source_component
           Sample.send_message self (Sample.world ∅) _ 0 Hr (or_introl eq_refl)).
Defined.

Lemma built_entity_presentation_witness :
  let self := Sample.component (VStr " hi ") "" true in
  exists m' props, w_heap (snd (build self (Sample.world ∅))) !! 0 = Some m' /\
    Sample.get_properties_from_source_component self ∅ = Returns props /\
    (chat_icon self <> "" -> p_icon (m_properties m') = VStr (chat_icon self)) /\
    (chat_icon self = "" -> p_icon (m_properties m') = props_icon props) /\
    p_background_color (m_properties m') = VStr (background_color self) /\
    p_text_color (m_properties m') = VStr (text_color self) /\
    (forall x, src_id (p_source (m_properties m')) = Some x <->
               (props_source_id props = Some x /\ x <> "")) /\
    (forall x, src_display_name (p_source (m_properties m')) = Some x <->
               (props_display_name props = Some x /\ x <> "")) /\
    p_other (m_properties m') = p_other (m_properties blank_Message).
Proof.
  intros self.
  assert (Hr : build self (Sample.world ∅)
               = (Ok 0, snd (build self (Sample.world ∅)))) by reflexivity.
  exact (built_entity_presentation Sample.Message_special blank_Message
           Sample.safe_convert Sample.get_properties_from_source_component
           Sample.send_message self (Sample.world ∅) _ 0 Hr (or_introl eq_refl)).
Defined.

Lemma other_entities_untouched_witness :
  let self := Sample.component (VStr " hi ") "" true in
  w_heap (snd (build self Sample.one_message)) !! 7 = Some Sample.greeting.
Proof.
  intros self.
  assert (Hr : build self Sample.one_message
               = (Ok 8, snd (build self Sample.one_message))) by reflexivity.
  exact (proj1 (other_entities_untouched Sample.Message_special blank_Message
                  Sample.safe_convert Sample.get_properties_from_source_component
                  Sample.send_message self Sample.one_message _ 8 Hr
                  (or_introl eq_refl)) 7 ltac:(discriminate)).
Defined.

Lemma early_failure_writes_nothing_witness :
  build (Sample.component (VInt 3) "s" true) Sample.one_message
  = (Err (TypeError (EXPECTED ++ "int")), Sample.one_message).
Proof.
  exact (early_failure_writes_nothing Sample.Message_special blank_Message
           Sample.safe_convert Sample.get_properties_from_source_component
           Sample.send_message (Sample.component (VInt 3) "s" true)
           Sample.one_message _ (or_introl eq_refl)).
Defined.

Lemma late_failure_keeps_overwrite_witness :
  let self := Sample.component (VMessage 7) "s" true in
  exists w' m',
    message_response Sample.Message_special blank_Message Sample.safe_convert
      Sample.get_properties_with_object_source Sample.send_message self
      Sample.one_message = (Err (Raised "RuntimeError" true), w') /\
    w_heap w' !! 7 = Some m' /\
    normalize self (w_heap Sample.one_message) = Ok (m_text m') /\
    m_sender m' = VStr "Machine" /\
    m_session_id m' = VStr "s" /\
    m_properties m' = m_properties Sample.greeting /\
    m_other m' = m_other Sample.greeting /\
    w_sent w' = [] /\ w_status w' = None.
Proof.
  intros self.
  destruct (late_failure_keeps_overwrite Sample.Message_special blank_Message
              Sample.safe_convert Sample.get_properties_with_object_source
              Sample.send_message self Sample.one_message 7 Sample.greeting
              (VStr "<Message>") _ (Raised "RuntimeError" true)
              eq_refl eq_refl eq_refl eq_refl eq_refl)
    as (w' & m' & Hrun & Hm & Htext & Hrest).
  exists w', m'. rewrite Htext. auto.
Defined.

Lemma text_source_run_returns_witness :
  exists w', build (Sample.component (VStr " hi ") "" true) (Sample.world ∅)
             = (Ok 0, w').
Proof.
  exact (text_source_run_returns Sample.Message_special blank_Message
           Sample.safe_convert Sample.get_properties_from_source_component
           Sample.send_message (Sample.component (VStr " hi ") "" true)
           (Sample.world ∅) (VStr "hi") _ eq_refl eq_refl
           (or_intror (ex_intro _ "granite" eq_refl)) (or_introl eq_refl)).
Defined.

Lemma renormalize_unchanged_witness :
  normalize (Sample.given (VStr "a: x")) ∅ = Ok (VStr "a: x").
Proof.
  exact (renormalize_unchanged Sample.Message_special Sample.safe_convert
           (Sample.given (Sample.record [(VStr "a", VStr "x ")]))
           (Sample.given (VStr "a: x")) ∅ ∅ "a: x" eq_refl eq_refl eq_refl).
Defined.

Lemma blank_entry_ignored_witness :
  normalize (Sample.given (Sample.record [(VStr "a", VStr "x");
                                          (Sample.widget, VNone);
                                          (VStr "d", VStr "y")])) ∅
  = normalize (Sample.given (Sample.record [(VStr "a", VStr "x");
                                            (VStr "d", VStr "y")])) ∅.
Proof.
  refine (blank_entry_ignored Sample.Message_special Sample.safe_convert
            (Sample.given (Sample.record [(VStr "a", VStr "x");
                                          (Sample.widget, VNone);
                                          (VStr "d", VStr "y")]))
            (Sample.given (Sample.record [(VStr "a", VStr "x");
                                          (VStr "d", VStr "y")]))
            ∅ (Sample.plain "<Data>")
            [(VStr "a", VStr "x")] [(VStr "d", VStr "y")] Sample.widget VNone
            eq_refl eq_refl eq_refl _).
  discriminate.
Defined.

Lemma text_payload_rendering_witness :
  normalize (Sample.given (Sample.record
               (text_entries [("a", " x"); ("b", ""); ("d", "y ")]))) ∅
  = Ok (VStr ("a:  x" ++ LF ++ "d: y")).
Proof.
  refine (text_payload_rendering Sample.Message_special Sample.safe_convert
            (Sample.given (Sample.record
               (text_entries [("a", " x"); ("b", ""); ("d", "y ")]))) ∅
            None (Sample.plain "<Data>") _ eq_refl _).
  intros s. discriminate.
Defined.

Lemma frame_value_degrades_witness :
  normalize (Sample.given (VDataFrame None (Some (VInt 42))
                             (Sample.plain "<DataFrame>"))) ∅
  = Ok (VStr "42").
Proof.
  refine (frame_value_degrades Sample.Message_special Sample.safe_convert
            (Sample.given (VDataFrame None (Some (VInt 42))
                             (Sample.plain "<DataFrame>"))) ∅
            (VInt 42) (Sample.plain "<DataFrame>") eq_refl _ (or_introl eq_refl)).
  discriminate.
Defined.

Lemma list_concatenation_witness :
  normalize (Sample.given (VList ([VStr " a "] ++ [VInt 1; VStr "b"]))) ∅
  = Ok (VStr ("a" ++ LF ++ "b")).
Proof.
  refine (list_concatenation Sample.Message_special Sample.safe_convert
            (Sample.given (VList [VStr " a "]))
            (Sample.given (VList [VInt 1; VStr "b"]))
            (Sample.given (VList ([VStr " a "] ++ [VInt 1; VStr "b"]))) ∅
            [VStr " a "] [VInt 1; VStr "b"] "a" "b"
            eq_refl eq_refl eq_refl eq_refl eq_refl eq_refl eq_refl _ _).
  - exists (VStr " a "), " a ". split; [apply elem_of_cons; now left | reflexivity].
  - exists (VStr "b"), "b".
    split; [|reflexivity].
    apply elem_of_cons; right. apply elem_of_cons; now left.
Defined.
